(** * PCB Track backend: boards, change log and user directory

    A shallow embedding of [backend/models.py], [backend/db.py] and
    [backend/main.py].  The three SQLite tables are lists of rows in
    insertion order, every endpoint is a function from the store to a
    response and a new store, and the clock ([now_iso]) and the identifier
    generator ([uuid4]) are arguments of the endpoints that read them. *)

From Stdlib Require Import ZArith NArith List String Ascii Lia Permutation Sorted.
From stdpp Require Import base list strings sorting.

Local Open Scope string_scope.
Local Open Scope list_scope.

(** ** JSON documents

    [json.dumps] followed by [json.loads] is the identity on the documents
    the program writes (null, booleans, strings, arrays, objects), so the
    [stages_json] column is modelled by the document itself.  A Python
    [dict] is an association list in insertion order. *)

#[local] Unset Elimination Schemes.
Inductive json : Type :=
| JNull
| JBool (b : bool)
| JStr (s : string)
| JArr (xs : list json)
| JObj (kv : list (string * json)).
#[local] Set Elimination Schemes.

Fixpoint dict_get (k : string) (kv : list (string * json)) : option json :=
  match kv with
  | [] => None
  | (k', v) :: rest => if String.eqb k k' then Some v else dict_get k rest
  end.

Definition dict_keys (j : json) : list string :=
  match j with
  | JObj kv => map fst kv
  | _ => []
  end.

(** ** models.py *)

Inductive UserRole := Designer | Reviewer.

Inductive PassFail := Pass | Fail.

Record Task := mkTask {
  task_name : string;
  task_designerApproved : bool;
  task_reviewerApproved : bool;
  task_required : option bool;
  task_url : option string;
  task_comments : option string
}.

Record Subcategory := mkSubcategory {
  sub_name : string;
  sub_designerApproved : option bool;
  sub_reviewerApproved : option bool;
  sub_tasks : list Task
}.

Record Stage := mkStage {
  stage_name : string;
  stage_tasks : option (list Task);
  stage_subcategories : option (list Subcategory)
}.

Record PCBBoard := mkPCBBoard {
  id : string;
  boardName : string;
  partNumber : string;
  revision : string;
  project : string;
  arrivedDate : string;
  isArrived : bool;
  passFailStatus : option PassFail;
  isNewRevision : bool;
  stages : list Stage;
  createdAt : string;
  isDeleted : option bool;
  deletedAt : option string
}.

Record CreateBoardRequest := mkCreateBoardRequest {
  req_boardName : string;
  req_partNumber : string;
  req_revision : string;
  req_project : string;
  req_isNewRevision : bool
}.

Record ChangeLogEntry := mkChangeLogEntry {
  cl_id : string;
  cl_timestamp : string;
  cl_userRole : UserRole;
  cl_userName : option string;
  cl_boardId : string;
  cl_boardName : string;
  cl_revision : string;
  cl_stage : string;
  cl_task : string;
  cl_field : string;
  cl_oldValue : string;
  cl_newValue : string
}.

Record CreateChangeLogRequest := mkCreateChangeLogRequest {
  clr_userRole : UserRole;
  clr_userName : option string;
  clr_boardId : string;
  clr_boardName : string;
  clr_revision : string;
  clr_stage : string;
  clr_task : string;
  clr_field : string;
  clr_oldValue : string;
  clr_newValue : string
}.

(** *** Validation of a document against a model class

    What constructing a [Task], a [Subcategory] or a [Stage] from a dict does on the
    documents this program stores: a required field must be present with
    the declared kind, an [Optional] field may be missing or null. *)

Definition req_str (k : string) (kv : list (string * json)) : option string :=
  match dict_get k kv with
  | Some (JStr s) => Some s
  | _ => None
  end.

Definition req_bool (k : string) (kv : list (string * json)) : option bool :=
  match dict_get k kv with
  | Some (JBool b) => Some b
  | _ => None
  end.

Definition opt_str (k : string) (kv : list (string * json)) : option (option string) :=
  match dict_get k kv with
  | None | Some JNull => Some None
  | Some (JStr s) => Some (Some s)
  | Some _ => None
  end.

Definition opt_bool (k : string) (kv : list (string * json)) : option (option bool) :=
  match dict_get k kv with
  | None | Some JNull => Some None
  | Some (JBool b) => Some (Some b)
  | Some _ => None
  end.

Definition validate_task (j : json) : option Task :=
  match j with
  | JObj kv =>
      match req_str "name" kv, req_bool "designerApproved" kv,
            req_bool "reviewerApproved" kv, opt_bool "required" kv,
            opt_str "url" kv, opt_str "comments" kv with
      | Some n, Some d, Some r, Some rq, Some u, Some c => Some (mkTask n d r rq u c)
      | _, _, _, _, _, _ => None
      end
  | _ => None
  end.

(** [tasks: List[Task] = Field(default_factory=list)]: a missing key gives
    the empty list, null is refused. *)
Definition default_tasks (k : string) (kv : list (string * json)) : option (list Task) :=
  match dict_get k kv with
  | None => Some []
  | Some (JArr xs) => mapM validate_task xs
  | Some _ => None
  end.

Definition validate_subcategory (j : json) : option Subcategory :=
  match j with
  | JObj kv =>
      match req_str "name" kv, opt_bool "designerApproved" kv,
            opt_bool "reviewerApproved" kv, default_tasks "tasks" kv with
      | Some n, Some d, Some r, Some ts => Some (mkSubcategory n d r ts)
      | _, _, _, _ => None
      end
  | _ => None
  end.

Definition opt_list {A : Type} (f : json -> option A) (k : string)
    (kv : list (string * json)) : option (option (list A)) :=
  match dict_get k kv with
  | None | Some JNull => Some None
  | Some (JArr xs) =>
      match mapM f xs with
      | Some l => Some (Some l)
      | None => None
      end
  | Some _ => None
  end.

Definition validate_stage (j : json) : option Stage :=
  match j with
  | JObj kv =>
      match req_str "name" kv, opt_list validate_task "tasks" kv,
            opt_list validate_subcategory "subcategories" kv with
      | Some n, Some ts, Some scs => Some (mkStage n ts scs)
      | _, _, _ => None
      end
  | _ => None
  end.

(** [stages: List[Stage]] of [PCBBoard]. *)
Definition validate_stages (j : json) : option (list Stage) :=
  match j with
  | JArr xs => mapM validate_stage xs
  | _ => None
  end.

(** *** [model_dump] *)

Definition dump_opt_bool (o : option bool) : json :=
  match o with Some b => JBool b | None => JNull end.

Definition dump_opt_str (o : option string) : json :=
  match o with Some s => JStr s | None => JNull end.

Definition dump_task (t : Task) : json :=
  JObj [("name", JStr (task_name t));
        ("designerApproved", JBool (task_designerApproved t));
        ("reviewerApproved", JBool (task_reviewerApproved t));
        ("required", dump_opt_bool (task_required t));
        ("url", dump_opt_str (task_url t));
        ("comments", dump_opt_str (task_comments t))].

Definition dump_subcategory (s : Subcategory) : json :=
  JObj [("name", JStr (sub_name s));
        ("designerApproved", dump_opt_bool (sub_designerApproved s));
        ("reviewerApproved", dump_opt_bool (sub_reviewerApproved s));
        ("tasks", JArr (map dump_task (sub_tasks s)))].

Definition dump_opt_list {A : Type} (f : A -> json) (o : option (list A)) : json :=
  match o with Some l => JArr (map f l) | None => JNull end.

Definition model_dump (s : Stage) : json :=
  JObj [("name", JStr (stage_name s));
        ("tasks", dump_opt_list dump_task (stage_tasks s));
        ("subcategories", dump_opt_list dump_subcategory (stage_subcategories s))].

(** ** main.py: the stage catalog *)

Record SubcategoryTemplate := mkSubT {
  subt_name : string;
  subt_tasks : list string
}.

(** A template stage is a dict with a ["name"] and a ["tasks"] or a
    ["subcategories"] key; [None] is an absent key. *)
Record StageTemplate := mkStageT {
  tmpl_name : string;
  tmpl_tasks : option (list string);
  tmpl_subcategories : option (list SubcategoryTemplate)
}.

Definition STAGE_TEMPLATES : list StageTemplate :=
  [ mkStageT "Pre-Schematics"
      (Some [ "Requirements Available";
              "EQ Review (Previous revision)";
              "Bringup notes (Previous revision)";
              "Mechanical notes (Previous revision)";
              "Comments 365 (Previous revision)";
              "Block Diagram Updated";
              "Power Tree Updated";
              "Shielding";
              "PDR Completed" ]) None;
    mkStageT "Schematics"
      (Some [ "Schematic design";
              "Test points";
              "GND hooks";
              "Shielding";
              "Parts in BOM" ]) None;
    mkStageT "Layout"
      (Some [ "Define Rules";
              "Define Stackup";
              "Get DXF";
              "Concept Placement";
              "First Mechanical Approval";
              "Placement";
              "Second Mechanical Approval";
              "Wiring";
              "Impedance control done?";
              "Length matching done?";
              "Filling and capping vias sets?";
              "TEAR DROPS optional done?";
              "Backdrill done?";
              "STITCHING and shielding? (if need)";
              "Check BOARD outline (5mil) layers";
              "Check Assembly layer";
              "Silk overview [name connectors(pins?), part number, serial number]";
              "Final Mechanical Approval" ]) None;
    mkStageT "Release"
      (Some [ "Update Issues Excel";
              "Issues Excel Review";
              "Draftsman";
              "Confluence – Main Page";
              "Confluence – Bringup";
              "Software fetchers doc" ]) None;
    mkStageT "Order"
      (Some [ "PCB Ordered";
              "PCB Received";
              "Assembly Ordered";
              "Assembly Received" ]) None;
    mkStageT "Bringup"
      (Some [ "Bringup Started";
              "Bringup Completed";
              "Bringup Notes Updated" ]) None;
    mkStageT "Validation"
      (Some [ "Bringup Completed";
              "Board outline";
              "BOM components stage";
              "Planes" ]) None;
    mkStageT "In Production" None
      (Some [ mkSubT "Mechanical"
                [ "Mechanical Integration Complete";
                  "Mechanical Testing Passed";
                  "Mechanical Sign-Off" ];
              mkSubT "Embedded"
                [ "Firmware Loaded";
                  "Embedded Testing Complete";
                  "Embedded Sign-Off" ];
              mkSubT "Software"
                [ "Software Integration Complete";
                  "Software Testing Passed";
                  "Software Sign-Off" ];
              mkSubT "System"
                [ "System Integration Complete";
                  "System Testing Passed";
                  "System Sign-Off" ] ]) ].

(** The dict built for one task name, flat or inside a subcategory. *)
Definition task_dict (t : string) : json :=
  JObj [("name", JStr t);
        ("designerApproved", JBool false);
        ("reviewerApproved", JBool false)].

Definition subcategory_dict (sc : SubcategoryTemplate) : json :=
  JObj [("name", JStr (subt_name sc));
        ("designerApproved", JBool false);
        ("reviewerApproved", JBool false);
        ("tasks", JArr (map task_dict (subt_tasks sc)))].

(** The body of the loop of [build_default_stages]: [stage] starts with
    its name, then receives ["tasks"] and ["subcategories"] when the
    template has the key. *)
Definition stage_dict (st : StageTemplate) : json :=
  JObj ([("name", JStr (tmpl_name st))]
        ++ match tmpl_tasks st with
           | Some ts => [("tasks", JArr (map task_dict ts))]
           | None => []
           end
        ++ match tmpl_subcategories st with
           | Some scs => [("subcategories", JArr (map subcategory_dict scs))]
           | None => []
           end).

Definition build_stages_from (templates : list StageTemplate) : list json :=
  map stage_dict templates.

Definition build_default_stages : list json :=
  build_stages_from STAGE_TEMPLATES.

(** ** Identifiers and the clock

    [uuid4()] is the 128-bit integer it draws; [str] of it is the text
    form [8-4-4-4-12] of its 32 hexadecimal digits.  [now_iso()] is the
    text the clock returns at the call. *)

Definition hex_digit (d : N) : ascii :=
  nth (N.to_nat d) (list_ascii_of_string "0123456789abcdef") "0"%char.

(** The [i]-th digit, from the left, of ['%032x' % n]. *)
Definition hex_at (n : N) (i : nat) : ascii :=
  hex_digit ((n / 16 ^ N.of_nat (31 - i)) mod 16)%N.

Definition hex32 (n : N) : string :=
  string_of_list_ascii (map (hex_at n) (seq 0 32)).

Definition uuid_str (n : N) : string :=
  let x := hex32 n in
  substring 0 8 x ++ "-" ++ substring 8 4 x ++ "-" ++ substring 12 4 x
    ++ "-" ++ substring 16 4 x ++ "-" ++ substring 20 12 x.

(** ** db.py: rows and their conversion *)

Record BoardRow := mkBoardRow {
  r_id : string;
  r_board_name : string;
  r_part_number : string;
  r_revision : string;
  r_project : string;
  r_is_new_revision : Z;
  r_arrived_date : string;
  r_is_arrived : Z;
  r_pass_fail_status : option string;
  r_stages_json : json;
  r_created_at : string;
  r_updated_at : string;
  r_is_deleted : Z;
  r_deleted_at : option string
}.

Record ChangeRow := mkChangeRow {
  c_id : string;
  c_timestamp : string;
  c_user_role : string;
  c_user_name : option string;
  c_board_id : string;
  c_board_name : string;
  c_revision : string;
  c_stage : string;
  c_task : string;
  c_field : string;
  c_old_value : string;
  c_new_value : string
}.

(** A user name is a sequence of Unicode code points, because
    [str.strip] decides on code points. *)
Definition Name := list N.

Record Store := mkStore {
  boards : list BoardRow;
  change_log : list ChangeRow;
  users : list Name
}.

Definition init_db : Store := mkStore [] [] [].

(** The dict from which a [PCBBoard] is constructed. *)
Record BoardDict := mkBoardDict {
  d_id : string;
  d_boardName : string;
  d_partNumber : string;
  d_revision : string;
  d_project : string;
  d_isNewRevision : bool;
  d_arrivedDate : string;
  d_isArrived : bool;
  d_passFailStatus : option string;
  d_stages : json;
  d_createdAt : string;
  d_isDeleted : bool;
  d_deletedAt : option string
}.

(** The dict from which a [ChangeLogEntry] is constructed. *)
Record ChangeDict := mkChangeDict {
  e_id : string;
  e_timestamp : string;
  e_userRole : string;
  e_userName : option string;
  e_boardId : string;
  e_boardName : string;
  e_revision : string;
  e_stage : string;
  e_task : string;
  e_field : string;
  e_oldValue : string;
  e_newValue : string
}.

(** [bool(n)] on an INTEGER column. *)
Definition py_bool (n : Z) : bool := negb (n =? 0)%Z.

(** [1 if b else 0]. *)
Definition sql_bool (b : bool) : Z := if b then 1%Z else 0%Z.

(** [s or <empty>] on a string. *)
Definition or_empty (s : string) : string :=
  match s with
  | EmptyString => EmptyString
  | _ => s
  end.

(** [json.dumps] never returns the empty text, so the guard on
    [r["stages_json"]] always takes the [json.loads] branch. *)
Definition row_to_board_dict (r : BoardRow) : BoardDict :=
  {| d_id := r_id r;
     d_boardName := r_board_name r;
     d_partNumber := r_part_number r;
     d_revision := r_revision r;
     d_project := r_project r;
     d_isNewRevision := py_bool (r_is_new_revision r);
     d_arrivedDate := or_empty (r_arrived_date r);
     d_isArrived := py_bool (r_is_arrived r);
     d_passFailStatus := r_pass_fail_status r;
     d_stages := r_stages_json r;
     d_createdAt := r_created_at r;
     d_isDeleted := py_bool (r_is_deleted r);
     d_deletedAt := r_deleted_at r |}.

Definition row_to_changelog_dict (r : ChangeRow) : ChangeDict :=
  {| e_id := c_id r;
     e_timestamp := c_timestamp r;
     e_userRole := c_user_role r;
     e_userName := c_user_name r;
     e_boardId := c_board_id r;
     e_boardName := c_board_name r;
     e_revision := c_revision r;
     e_stage := c_stage r;
     e_task := c_task r;
     e_field := c_field r;
     e_oldValue := c_old_value r;
     e_newValue := c_new_value r |}.

(** [Optional[Literal["Pass", "Fail"]]]. *)
Definition validate_pass_fail (o : option string) : option (option PassFail) :=
  match o with
  | None => Some None
  | Some s =>
      if String.eqb s "Pass" then Some (Some Pass)
      else if String.eqb s "Fail" then Some (Some Fail)
      else None
  end.

Definition pass_fail_text (p : PassFail) : string :=
  match p with Pass => "Pass" | Fail => "Fail" end.

(** [Literal["Designer", "Reviewer"]]. *)
Definition validate_role (s : string) : option UserRole :=
  if String.eqb s "Designer" then Some Designer
  else if String.eqb s "Reviewer" then Some Reviewer
  else None.

Definition role_text (r : UserRole) : string :=
  match r with Designer => "Designer" | Reviewer => "Reviewer" end.

(** Construction of a [PCBBoard] from the dict [d]. *)
Definition validate_board (d : BoardDict) : option PCBBoard :=
  match validate_pass_fail (d_passFailStatus d), validate_stages (d_stages d) with
  | Some pf, Some sts =>
      Some {| id := d_id d;
              boardName := d_boardName d;
              partNumber := d_partNumber d;
              revision := d_revision d;
              project := d_project d;
              arrivedDate := d_arrivedDate d;
              isArrived := d_isArrived d;
              passFailStatus := pf;
              isNewRevision := d_isNewRevision d;
              stages := sts;
              createdAt := d_createdAt d;
              isDeleted := Some (d_isDeleted d);
              deletedAt := d_deletedAt d |}
  | _, _ => None
  end.

(** Construction of a [ChangeLogEntry] from the dict [d]. *)
Definition validate_entry (d : ChangeDict) : option ChangeLogEntry :=
  match validate_role (e_userRole d) with
  | Some role =>
      Some {| cl_id := e_id d;
              cl_timestamp := e_timestamp d;
              cl_userRole := role;
              cl_userName := e_userName d;
              cl_boardId := e_boardId d;
              cl_boardName := e_boardName d;
              cl_revision := e_revision d;
              cl_stage := e_stage d;
              cl_task := e_task d;
              cl_field := e_field d;
              cl_oldValue := e_oldValue d;
              cl_newValue := e_newValue d |}
  | None => None
  end.

(** ** SQL text order

    [ORDER BY] on a TEXT column compares the stored bytes, a shorter text
    before its extensions. *)

Fixpoint lex_leb (a b : list N) : bool :=
  match a, b with
  | [], _ => true
  | _ :: _, [] => false
  | x :: a', y :: b' =>
      if (x <? y)%N then true
      else if (x =? y)%N then lex_leb a' b'
      else false
  end.

Definition lex_le (a b : list N) : Prop := lex_leb a b = true.

Definition bytes (s : string) : list N :=
  map N_of_ascii (list_ascii_of_string s).

Definition text_le (s t : string) : Prop := lex_le (bytes s) (bytes t).

#[global] Instance lex_le_dec : RelDecision lex_le.
Proof. intros a b. unfold lex_le. apply bool_eq_dec. Defined.

#[global] Instance text_le_dec : RelDecision text_le.
Proof. intros s t. unfold text_le. apply lex_le_dec. Defined.

(** [ORDER BY key DESC] and [ORDER BY key ASC]. *)
Definition desc {A : Type} (key : A -> string) : relation A :=
  fun a b => text_le (key b) (key a).

#[global] Instance desc_dec {A : Type} (key : A -> string) : RelDecision (desc key).
Proof. intros a b. unfold desc. apply text_le_dec. Defined.

Definition order_by_desc {A : Type} (key : A -> string) (rows : list A) : list A :=
  merge_sort (desc key) rows.

Definition order_by_name (names : list Name) : list Name :=
  merge_sort lex_le names.

(** ** main.py: the endpoints

    An endpoint returns its response, or the exception it raises, and the
    store it leaves behind.  The [with db()] block commits when its body
    ends without an exception, and leaves the store as it was otherwise. *)

Inductive Error : Type :=
| HTTPException (status_code : Z) (detail : string)
| ModelError       (* a model class refuses the dict it is built from *)
| IntegrityError.  (* INSERT of a primary key that is already there *)

Inductive result (A : Type) : Type :=
| Ok (a : A)
| Raise (e : Error).

Arguments Ok {A} a.
Arguments Raise {A} e.

Definition NotFound : Error := HTTPException 404 "Board not found".
Definition IdMismatch : Error := HTTPException 400 "Board ID mismatch".
Definition EmptyName : Error := HTTPException 400 "Name cannot be empty".

Definition to_result {A : Type} (o : option A) : result A :=
  match o with
  | Some a => Ok a
  | None => Raise ModelError
  end.

Definition board_of_row (r : BoardRow) : option PCBBoard :=
  validate_board (row_to_board_dict r).

Definition entry_of_row (r : ChangeRow) : option ChangeLogEntry :=
  validate_entry (row_to_changelog_dict r).

(** [WHERE id=?] *)
Definition has_id (board_id : string) (r : BoardRow) : bool :=
  String.eqb (r_id r) board_id.

(** [SELECT ... FROM boards WHERE id=?] with [fetchone]. *)
Definition select_board (board_id : string) (rows : list BoardRow) : option BoardRow :=
  find (has_id board_id) rows.

(** [UPDATE boards SET ... WHERE id=?] *)
Definition update_where (board_id : string) (set : BoardRow -> BoardRow)
    (rows : list BoardRow) : list BoardRow :=
  map (fun r => if has_id board_id r then set r else r) rows.

Definition with_boards (st : Store) (rows : list BoardRow) : Store :=
  {| boards := rows; change_log := change_log st; users := users st |}.

Definition list_boards (includeDeleted : bool) (st : Store)
  : result (list PCBBoard) * Store :=
  let rows :=
    if includeDeleted then order_by_desc r_created_at (boards st)
    else order_by_desc r_created_at
           (filter (fun r => r_is_deleted r = 0%Z) (boards st)) in
  (to_result (mapM board_of_row rows), st).

Definition get_board (board_id : string) (st : Store) : result PCBBoard * Store :=
  match select_board board_id (boards st) with
  | None => (Raise NotFound, st)
  | Some r => (to_result (board_of_row r), st)
  end.

Definition create_board (uuid : N) (now : string) (req : CreateBoardRequest)
    (st : Store) : result PCBBoard * Store :=
  let board_id := uuid_str uuid in
  let ts := now in
  let board_dict :=
    {| d_id := board_id;
       d_boardName := req_boardName req;
       d_partNumber := req_partNumber req;
       d_revision := req_revision req;
       d_project := req_project req;
       d_arrivedDate := EmptyString;
       d_isArrived := false;
       d_passFailStatus := None;
       d_isNewRevision := req_isNewRevision req;
       d_stages := JArr build_default_stages;
       d_createdAt := ts;
       d_isDeleted := false;
       d_deletedAt := None |} in
  if existsb (has_id board_id) (boards st) then (Raise IntegrityError, st)
  else
    let row :=
      {| r_id := board_id;
         r_board_name := req_boardName req;
         r_part_number := req_partNumber req;
         r_revision := req_revision req;
         r_project := req_project req;
         r_is_new_revision := sql_bool (req_isNewRevision req);
         r_arrived_date := EmptyString;
         r_is_arrived := 0;
         r_pass_fail_status := None;
         r_stages_json := d_stages board_dict;
         r_created_at := ts;
         r_updated_at := ts;
         r_is_deleted := 0;
         r_deleted_at := None |} in
    (to_result (validate_board board_dict), with_boards st (boards st ++ [row])).

(** [board.isDeleted or False] *)
Definition or_false (o : option bool) : bool :=
  match o with
  | Some true => true
  | _ => false
  end.

(** The SET clause of [update_board]: every column but [id] and
    [created_at]. *)
Definition set_from_board (updated_at : string) (board : PCBBoard) (r : BoardRow)
  : BoardRow :=
  {| r_id := r_id r;
     r_board_name := boardName board;
     r_part_number := partNumber board;
     r_revision := revision board;
     r_project := project board;
     r_is_new_revision := sql_bool (isNewRevision board);
     r_arrived_date := or_empty (arrivedDate board);
     r_is_arrived := sql_bool (isArrived board);
     r_pass_fail_status := option_map pass_fail_text (passFailStatus board);
     r_stages_json := JArr (map model_dump (stages board));
     r_created_at := r_created_at r;
     r_updated_at := updated_at;
     r_is_deleted := sql_bool (or_false (isDeleted board));
     r_deleted_at := deletedAt board |}.

Definition update_board (now : string) (board_id : string) (board : PCBBoard)
    (st : Store) : result PCBBoard * Store :=
  if negb (String.eqb (id board) board_id) then (Raise IdMismatch, st)
  else
    match select_board board_id (boards st) with
    | None => (Raise NotFound, st)
    | Some _ =>
        let updated_at := now in
        (Ok board,
         with_boards st
           (update_where board_id (set_from_board updated_at board) (boards st)))
    end.

Definition set_deleted (flag : Z) (deleted_at : option string) (updated_at : string)
    (r : BoardRow) : BoardRow :=
  {| r_id := r_id r;
     r_board_name := r_board_name r;
     r_part_number := r_part_number r;
     r_revision := r_revision r;
     r_project := r_project r;
     r_is_new_revision := r_is_new_revision r;
     r_arrived_date := r_arrived_date r;
     r_is_arrived := r_is_arrived r;
     r_pass_fail_status := r_pass_fail_status r;
     r_stages_json := r_stages_json r;
     r_created_at := r_created_at r;
     r_updated_at := updated_at;
     r_is_deleted := flag;
     r_deleted_at := deleted_at |}.

(** The second SELECT of [soft_delete_board] and [restore_board] reads the
    row back; the board is built from it after the commit.  The UPDATE
    keeps the identifier, so the row is there; without it the conversion
    would raise as well. *)
Definition reread (board_id : string) (st : Store) : result PCBBoard * Store :=
  match select_board board_id (boards st) with
  | Some r2 => (to_result (board_of_row r2), st)
  | None => (Raise ModelError, st)
  end.

Definition soft_delete_board (now : string) (board_id : string) (st : Store)
  : result PCBBoard * Store :=
  match select_board board_id (boards st) with
  | None => (Raise NotFound, st)
  | Some _ =>
      let deleted_at := now in
      reread board_id
        (with_boards st
           (update_where board_id (set_deleted 1 (Some deleted_at) deleted_at) (boards st)))
  end.

Definition restore_board (now : string) (board_id : string) (st : Store)
  : result PCBBoard * Store :=
  match select_board board_id (boards st) with
  | None => (Raise NotFound, st)
  | Some _ =>
      let ts := now in
      reread board_id
        (with_boards st (update_where board_id (set_deleted 0 None ts) (boards st)))
  end.

(** The response [{"ok": True}] is a JSON object. *)
Definition permanent_delete_board (board_id : string) (st : Store)
  : result json * Store :=
  match select_board board_id (boards st) with
  | None => (Raise NotFound, st)
  | Some _ =>
      (Ok (JObj [("ok", JBool true)]),
       {| boards := filter (fun r => r_id r <> board_id) (boards st);
          change_log := filter (fun c => c_board_id c <> board_id) (change_log st);
          users := users st |})
  end.

(** [if boardId:] holds for a text that is present and not empty. *)
Definition truthy (o : option string) : bool :=
  match o with
  | Some (String _ _) => true
  | _ => false
  end.

Definition get_changelog (boardId : option string) (st : Store)
  : result (list ChangeLogEntry) * Store :=
  let rows :=
    if truthy boardId then
      order_by_desc c_timestamp
        (filter (fun c => Some (c_board_id c) = boardId) (change_log st))
    else order_by_desc c_timestamp (change_log st) in
  (to_result (mapM entry_of_row rows), st).

Definition add_changelog (uuid : N) (now : string) (req : CreateChangeLogRequest)
    (st : Store) : result ChangeLogEntry * Store :=
  let entry_id := uuid_str uuid in
  let ts := now in
  let entry :=
    {| e_id := entry_id;
       e_timestamp := ts;
       e_userRole := role_text (clr_userRole req);
       e_userName := clr_userName req;
       e_boardId := clr_boardId req;
       e_boardName := clr_boardName req;
       e_revision := clr_revision req;
       e_stage := clr_stage req;
       e_task := clr_task req;
       e_field := clr_field req;
       e_oldValue := clr_oldValue req;
       e_newValue := clr_newValue req |} in
  if existsb (fun c => String.eqb (c_id c) entry_id) (change_log st)
  then (Raise IntegrityError, st)
  else
    let row :=
      {| c_id := entry_id;
         c_timestamp := ts;
         c_user_role := role_text (clr_userRole req);
         c_user_name := clr_userName req;
         c_board_id := clr_boardId req;
         c_board_name := clr_boardName req;
         c_revision := clr_revision req;
         c_stage := clr_stage req;
         c_task := clr_task req;
         c_field := clr_field req;
         c_old_value := clr_oldValue req;
         c_new_value := clr_newValue req |} in
    (to_result (validate_entry entry),
     {| boards := boards st; change_log := change_log st ++ [row]; users := users st |}).

(** *** Users *)

(** [str.isspace] on one code point. *)
Definition isspace (c : N) : bool :=
  ((9 <=? c) && (c <=? 13) || (28 <=? c) && (c <=? 32)
   || (c =? 133) || (c =? 160) || (c =? 5760)
   || (8192 <=? c) && (c <=? 8202)
   || (c =? 8232) || (c =? 8233) || (c =? 8239) || (c =? 8287)
   || (c =? 12288))%N.

Fixpoint lstrip (s : Name) : Name :=
  match s with
  | c :: rest => if isspace c then lstrip rest else s
  | [] => []
  end.

Definition rstrip (s : Name) : Name := rev (lstrip (rev s)).

Definition strip (s : Name) : Name := rstrip (lstrip s).

Definition with_users (st : Store) (names : list Name) : Store :=
  {| boards := boards st; change_log := change_log st; users := names |}.

Definition list_users (st : Store) : result (list Name) * Store :=
  (Ok (order_by_name (users st)), st).

(** [INSERT OR IGNORE INTO users(name)] *)
Definition insert_or_ignore (name : Name) (names : list Name) : list Name :=
  if decide (name ∈ names) then names else names ++ [name].

Definition add_user (req_name : Name) (st : Store) : result (list Name) * Store :=
  let name := strip req_name in
  match name with
  | [] => (Raise EmptyName, st)
  | _ :: _ =>
      let names := insert_or_ignore name (users st) in
      (Ok (order_by_name names), with_users st names)
  end.

Definition remove_user (name : Name) (st : Store) : result (list Name) * Store :=
  let names := filter (fun n => n <> name) (users st) in
  (Ok (order_by_name names), with_users st names).

(** * The progress tree on the model classes *)

(** The builder as the specification words it, on the model classes: a
    task with both approvals false and nothing else set, a subcategory with
    both approvals false over such tasks, a stage with the template's name. *)

Definition spec_task (n : string) : Task :=
  mkTask n false false None None None.

Definition spec_subcategory (sc : SubcategoryTemplate) : Subcategory :=
  mkSubcategory (subt_name sc) (Some false) (Some false)
    (map spec_task (subt_tasks sc)).

Definition spec_stage (st : StageTemplate) : Stage :=
  mkStage (tmpl_name st)
    (option_map (map spec_task) (tmpl_tasks st))
    (option_map (map spec_subcategory) (tmpl_subcategories st)).

(** Every task of a stage, flat or under a subcategory. *)
Definition all_tasks (s : Stage) : list Task :=
  default [] (stage_tasks s)
  ++ flat_map sub_tasks (default [] (stage_subcategories s)).

(** The number of tasks of a flat stage, or of each subcategory of a
    grouped one. *)
Definition shape (s : Stage) : option nat * option (list nat) :=
  (option_map (@length Task) (stage_tasks s),
   option_map (map (fun sc => length (sub_tasks sc))) (stage_subcategories s)).

Definition unapproved (t : Task) : Prop :=
  task_designerApproved t = false /\ task_reviewerApproved t = false
  /\ task_required t = None /\ task_url t = None /\ task_comments t = None.

(** * Well-formed stores

    What every endpoint writes and no endpoint breaks: a board row has an
    identifier that is not empty and builds a [PCBBoard], a change-log row
    builds a [ChangeLogEntry], a stored user name is not empty and is
    already stripped. *)

Definition wf_board_row (r : BoardRow) : Prop :=
  r_id r <> EmptyString /\ is_Some (board_of_row r).

Definition wf_change_row (c : ChangeRow) : Prop :=
  is_Some (entry_of_row c).

Definition wf_name (n : Name) : Prop :=
  n <> [] /\ strip n = n.

Definition wf_store (st : Store) : Prop :=
  Forall wf_board_row (boards st)
  /\ Forall wf_change_row (change_log st)
  /\ Forall wf_name (users st).

(** One call of an endpoint that can write. *)
Inductive step (st : Store) : Store -> Prop :=
| step_create uuid now req :
    step st (snd (create_board uuid now req st))
| step_update now board_id board :
    step st (snd (update_board now board_id board st))
| step_soft_delete now board_id :
    step st (snd (soft_delete_board now board_id st))
| step_restore now board_id :
    step st (snd (restore_board now board_id st))
| step_permanent_delete board_id :
    step st (snd (permanent_delete_board board_id st))
| step_add_changelog uuid now req :
    step st (snd (add_changelog uuid now req st))
| step_add_user name :
    step st (snd (add_user name st))
| step_remove_user name :
    step st (snd (remove_user name st)).

Inductive reachable : Store -> Prop :=
| reachable_init : reachable init_db
| reachable_step st st' : reachable st -> step st st' -> reachable st'.

(** A text with no white space in front. *)
Definition lstripped (s : Name) : Prop :=
  match s with
  | c :: _ => isspace c = false
  | [] => True
  end.

(** ** Views of a board *)

(** The payload with [id] and [createdAt] replaced by the stored ones. *)
Definition pinned (board_id created_at : string) (b : PCBBoard) : PCBBoard :=
  {| id := board_id;
     boardName := boardName b;
     partNumber := partNumber b;
     revision := revision b;
     project := project b;
     arrivedDate := arrivedDate b;
     isArrived := isArrived b;
     passFailStatus := passFailStatus b;
     isNewRevision := isNewRevision b;
     stages := stages b;
     createdAt := created_at;
     isDeleted := isDeleted b;
     deletedAt := deletedAt b |}.

Definition with_deleted (flag : option bool) (deleted_at : option string)
    (b : PCBBoard) : PCBBoard :=
  {| id := id b;
     boardName := boardName b;
     partNumber := partNumber b;
     revision := revision b;
     project := project b;
     arrivedDate := arrivedDate b;
     isArrived := isArrived b;
     passFailStatus := passFailStatus b;
     isNewRevision := isNewRevision b;
     stages := stages b;
     createdAt := createdAt b;
     isDeleted := flag;
     deletedAt := deleted_at |}.

(** The entry an append request describes. *)
Definition entry_of_request (entry_id ts : string) (req : CreateChangeLogRequest)
  : ChangeLogEntry :=
  {| cl_id := entry_id;
     cl_timestamp := ts;
     cl_userRole := clr_userRole req;
     cl_userName := clr_userName req;
     cl_boardId := clr_boardId req;
     cl_boardName := clr_boardName req;
     cl_revision := clr_revision req;
     cl_stage := clr_stage req;
     cl_task := clr_task req;
     cl_field := clr_field req;
     cl_oldValue := clr_oldValue req;
     cl_newValue := clr_newValue req |}.

(** ** Sample data *)

(** A user name written in ASCII. *)
Definition ascii_name (s : string) : Name := bytes s.

Definition alpha_request : CreateBoardRequest :=
  mkCreateBoardRequest "Alpha" "PN-1" "A" "X" false.

Definition alpha_uuid : N := 0x123e4567e89b42d3a456426614174000.

Definition alpha_id : string := "123e4567-e89b-42d3-a456-426614174000".

Definition one_board : Store :=
  snd (create_board alpha_uuid "2024-05-01T10:00:00+00:00" alpha_request init_db).

Definition alpha_board : PCBBoard :=
  {| id := alpha_id;
     boardName := "Alpha";
     partNumber := "PN-1";
     revision := "A";
     project := "X";
     arrivedDate := EmptyString;
     isArrived := false;
     passFailStatus := None;
     isNewRevision := false;
     stages := map spec_stage STAGE_TEMPLATES;
     createdAt := "2024-05-01T10:00:00+00:00";
     isDeleted := Some false;
     deletedAt := None |}.

Definition sample_log_request : CreateChangeLogRequest :=
  mkCreateChangeLogRequest Reviewer (Some "Dana") "no-such-board" "Ghost" "B"
    "Layout" "Wiring" "reviewerApproved" "false" "true".

Definition beta_request : CreateBoardRequest :=
  mkCreateBoardRequest "Beta" "PN-1" "A" "Y" true.

Definition beta_id : string := "00000000-0000-4000-8000-0000000000b2".

(** Alpha and Beta share part number and revision; Alpha is then
    soft-deleted. *)
Definition two_boards : Store :=
  snd (soft_delete_board "2024-05-03T09:00:00+00:00" alpha_id
         (snd (create_board 0x000000000000400080000000000000b2
                 "2024-05-02T12:00:00.250000+00:00" beta_request one_board))).

(** [two_boards] with one change-log entry for Beta and one for Alpha. *)
Definition logged : Store :=
  snd (add_changelog 2 "2024-05-04T08:00:00+00:00"
         (mkCreateChangeLogRequest Designer None alpha_id "Alpha" "A"
            "Layout" "Wiring" "designerApproved" "false" "true")
         (snd (add_changelog 1 "2024-05-03T10:00:00+00:00"
                 (mkCreateChangeLogRequest Reviewer (Some "Dana") beta_id "Beta" "A"
                    "Order" "PCB Ordered" "reviewerApproved" "false" "true")
                 two_boards))).

(** ** Further predicates *)

(** The primary keys of the three tables are pairwise distinct. *)
Definition unique_keys (st : Store) : Prop :=
  NoDup (map r_id (boards st))
  /\ NoDup (map c_id (change_log st))
  /\ NoDup (users st).

(** Every code point of the text is white space. *)
Definition all_space (s : Name) : bool := forallb isspace s.

(** A text that is not empty and neither starts nor ends with white
    space. *)
Definition trimmed (n : Name) : Prop :=
  n <> [] /\ lstripped n /\ lstripped (rev n).

(** The live view of a board: not deleted, no deletion time. *)
Definition live (b : PCBBoard) : Prop :=
  isDeleted b = Some false /\ deletedAt b = None.

(** A roster with Bob and Al, added in that order. *)
Definition bob_and_al : Store :=
  snd (add_user (ascii_name "Al") (snd (add_user (ascii_name " Bob ") init_db))).

(** * Properties *)

Lemma mapM_map_Some {A B C : Type} (f : B -> option C) (g : A -> B) (h : A -> C)
    (l : list A) :
  (forall x, f (g x) = Some (h x)) -> mapM f (map g l) = Some (map h l).
Proof.
  intros Hfg. induction l as [|x l IH]; simpl.
  - reflexivity.
  - rewrite Hfg, IH. reflexivity.
Qed.

Lemma validate_task_dict (n : string) : validate_task (task_dict n) = Some (spec_task n).
Proof. reflexivity. Qed.

Lemma validate_subcategory_dict (sc : SubcategoryTemplate) :
  validate_subcategory (subcategory_dict sc) = Some (spec_subcategory sc).
Proof.
  unfold validate_subcategory, subcategory_dict, default_tasks; simpl.
  rewrite (mapM_map_Some _ _ spec_task) by apply validate_task_dict.
  reflexivity.
Qed.

Lemma validate_stage_dict (st : StageTemplate) :
  validate_stage (stage_dict st) = Some (spec_stage st).
Proof.
  destruct st as [n [ts|] [scs|]];
    unfold validate_stage, stage_dict, opt_list, spec_stage; simpl;
    rewrite ?(mapM_map_Some _ _ spec_task) by apply validate_task_dict;
    rewrite ?(mapM_map_Some _ _ spec_subcategory) by apply validate_subcategory_dict;
    reflexivity.
Qed.

Lemma build_stages_from_spec (templates : list StageTemplate) :
  validate_stages (JArr (build_stages_from templates))
  = Some (map spec_stage templates).
Proof. apply mapM_map_Some, validate_stage_dict. Qed.

Lemma spec_task_unapproved (n : string) : unapproved (spec_task n).
Proof. repeat split. Qed.

Lemma all_tasks_spec_stage (st : StageTemplate) :
  Forall unapproved (all_tasks (spec_stage st)).
Proof.
  unfold all_tasks. apply Forall_app. split.
  - destruct st as [n [ts|] scs]; simpl; [|constructor].
    apply Forall_forall. intros t Ht. apply list_elem_of_In in Ht.
    apply in_map_iff in Ht as (x & <- & _). apply spec_task_unapproved.
  - destruct st as [n ts [scs|]]; simpl; [|constructor].
    apply Forall_forall. intros t Ht. apply list_elem_of_In in Ht.
    apply in_flat_map in Ht as (sc & Hsc & Ht).
    apply in_map_iff in Hsc as (x & <- & _). simpl in Ht.
    apply in_map_iff in Ht as (y & <- & _). apply spec_task_unapproved.
Qed.

(** C1. [build_default_stages] reads nothing but the catalog, and the
    stages a board is built from are the catalog's, in catalog order: same
    stage names, one task per template task name, one subcategory per
    template subcategory over its tasks, with both approvals false and no
    optional field set (a task dict has the three keys and no other); the
    eight stage names and the task counts are the literal ones.  The same
    holds for the builder over any catalog. *)
Theorem build_default_stages_matches_catalog :
  (forall t,
     dict_keys (task_dict t) = ["name"; "designerApproved"; "reviewerApproved"])
  /\ (forall templates,
       validate_stages (JArr (build_stages_from templates))
       = Some (map spec_stage templates))
  /\ exists sts,
       validate_stages (JArr build_default_stages) = Some sts
       /\ sts = map spec_stage STAGE_TEMPLATES
       /\ length build_default_stages = length STAGE_TEMPLATES
       /\ map stage_name sts
          = ["Pre-Schematics"; "Schematics"; "Layout"; "Release"; "Order";
             "Bringup"; "Validation"; "In Production"]
       /\ map shape sts
          = [(Some 9, None); (Some 5, None); (Some 18, None); (Some 6, None);
             (Some 4, None); (Some 3, None); (Some 4, None);
             (None, Some [3; 3; 3; 3])]
       /\ Forall (fun s => Forall unapproved (all_tasks s)) sts
       /\ Forall (fun s => forall sc, In sc (default [] (stage_subcategories s)) ->
                    sub_designerApproved sc = Some false
                    /\ sub_reviewerApproved sc = Some false) sts.
Proof.
  split; [reflexivity|].
  split; [exact build_stages_from_spec|].
  exists (map spec_stage STAGE_TEMPLATES).
  split; [apply build_stages_from_spec|].
  split; [reflexivity|].
  split; [reflexivity|].
  split; [reflexivity|].
  split; [reflexivity|].
  split.
  - apply Forall_forall. intros s Hs. apply list_elem_of_In in Hs.
    apply in_map_iff in Hs as (st & <- & _). apply all_tasks_spec_stage.
  - apply Forall_forall. intros s Hs sc Hsc. apply list_elem_of_In in Hs.
    apply in_map_iff in Hs as (st & <- & _).
    destruct st as [n ts [scs|]]; simpl in Hsc; [|contradiction].
    apply in_map_iff in Hsc as (x & <- & _). split; reflexivity.
Qed.

(** ** Stored documents read back as they were written *)

Lemma mapM_map_id {A B : Type} (f : B -> option A) (g : A -> B) (l : list A) :
  (forall x, f (g x) = Some x) -> mapM f (map g l) = Some l.
Proof.
  intros Hfg. rewrite (mapM_map_Some f g (fun x => x)) by exact Hfg.
  rewrite map_id. reflexivity.
Qed.

Lemma validate_dump_task (t : Task) : validate_task (dump_task t) = Some t.
Proof. destruct t as [n d r [rq|] [u|] [c|]]; reflexivity. Qed.

Lemma validate_dump_subcategory (s : Subcategory) :
  validate_subcategory (dump_subcategory s) = Some s.
Proof.
  destruct s as [n d r ts].
  unfold validate_subcategory, dump_subcategory, default_tasks; simpl.
  rewrite mapM_map_id by apply validate_dump_task.
  destruct d, r; reflexivity.
Qed.

Lemma validate_model_dump (s : Stage) : validate_stage (model_dump s) = Some s.
Proof.
  destruct s as [n [ts|] [scs|]];
    unfold validate_stage, model_dump, opt_list; simpl;
    rewrite ?(mapM_map_id validate_task) by apply validate_dump_task;
    rewrite ?(mapM_map_id validate_subcategory) by apply validate_dump_subcategory;
    reflexivity.
Qed.

Lemma validate_stages_dump (l : list Stage) :
  validate_stages (JArr (map model_dump l)) = Some l.
Proof. apply mapM_map_id, validate_model_dump. Qed.

Lemma validate_pass_fail_text (p : option PassFail) :
  validate_pass_fail (option_map pass_fail_text p) = Some p.
Proof. destruct p as [[|]|]; reflexivity. Qed.

Lemma validate_role_text (r : UserRole) : validate_role (role_text r) = Some r.
Proof. destruct r; reflexivity. Qed.

Lemma py_bool_sql_bool (b : bool) : py_bool (sql_bool b) = b.
Proof. destruct b; reflexivity. Qed.

Lemma or_empty_id (s : string) : or_empty s = s.
Proof. destruct s; reflexivity. Qed.

(** ** SELECT and UPDATE by identifier *)

Lemma has_id_true (board_id : string) (r : BoardRow) :
  has_id board_id r = true <-> r_id r = board_id.
Proof. apply String.eqb_eq. Qed.

Lemma has_id_false (board_id : string) (r : BoardRow) :
  has_id board_id r = false <-> r_id r <> board_id.
Proof. apply String.eqb_neq. Qed.

Lemma select_board_Some (board_id : string) (rows : list BoardRow) (r : BoardRow) :
  select_board board_id rows = Some r -> r_id r = board_id /\ In r rows.
Proof.
  intros H. apply find_some in H as [Hin Hid].
  split; [apply has_id_true, Hid | exact Hin].
Qed.

Lemma select_board_None (board_id : string) (rows : list BoardRow) :
  select_board board_id rows = None <-> Forall (fun r => r_id r <> board_id) rows.
Proof.
  unfold select_board. induction rows as [|r rows IH]; simpl.
  - split; [constructor | reflexivity].
  - destruct (has_id board_id r) eqn:E.
    + split; [discriminate|]. intros H. inversion H as [|? ? Hne _]; subst.
      apply has_id_true in E. contradiction.
    + rewrite IH. apply has_id_false in E. split.
      * intros H. constructor; assumption.
      * intros H. inversion H; assumption.
Qed.

Lemma select_board_existsb (board_id : string) (rows : list BoardRow) :
  existsb (has_id board_id) rows = false <-> select_board board_id rows = None.
Proof.
  unfold select_board. induction rows as [|r rows IH]; simpl.
  - tauto.
  - destruct (has_id board_id r); simpl; [split; discriminate | exact IH].
Qed.

Section update_where.
Variable board_id : string.
Variable set : BoardRow -> BoardRow.
Hypothesis set_id : forall r, r_id (set r) = r_id r.

Lemma select_update_where_eq (rows : list BoardRow) :
  select_board board_id (update_where board_id set rows)
  = option_map set (select_board board_id rows).
Proof.
  unfold select_board, update_where.
  induction rows as [|r rows IH]; simpl; [reflexivity|].
  destruct (has_id board_id r) eqn:E.
  - unfold has_id at 1. rewrite set_id. fold (has_id board_id r).
    rewrite E. reflexivity.
  - rewrite E. exact IH.
Qed.

Lemma select_update_where_ne (other : string) (rows : list BoardRow) :
  other <> board_id ->
  select_board other (update_where board_id set rows) = select_board other rows.
Proof.
  intros Hne. unfold select_board, update_where.
  induction rows as [|r rows IH]; simpl; [reflexivity|].
  destruct (has_id board_id r) eqn:E.
  - apply has_id_true in E.
    assert (Hs : has_id other (set r) = false)
      by (apply has_id_false; rewrite set_id; congruence).
    assert (Hr : has_id other r = false) by (apply has_id_false; congruence).
    rewrite Hs, Hr. exact IH.
  - destruct (has_id other r); [reflexivity | exact IH].
Qed.
End update_where.

Lemma set_from_board_id (now : string) (b : PCBBoard) (r : BoardRow) :
  r_id (set_from_board now b r) = r_id r.
Proof. reflexivity. Qed.

Lemma set_deleted_id (flag : Z) (d : option string) (u : string) (r : BoardRow) :
  r_id (set_deleted flag d u r) = r_id r.
Proof. reflexivity. Qed.

(** The board read from a row that [update_board] has just written. *)
Lemma board_of_updated_row (now : string) (b : PCBBoard) (r : BoardRow) :
  board_of_row (set_from_board now b r)
  = Some (with_deleted (Some (or_false (isDeleted b))) (deletedAt b)
            (pinned (r_id r) (r_created_at r) b)).
Proof.
  unfold board_of_row, validate_board, row_to_board_dict, set_from_board.
  cbn -[validate_stages validate_pass_fail py_bool sql_bool or_empty or_false].
  rewrite validate_pass_fail_text, validate_stages_dump.
  rewrite !py_bool_sql_bool, !or_empty_id. reflexivity.
Qed.

Lemma update_board_success (now board_id : string) (board : PCBBoard) (st : Store)
    (r : BoardRow) :
  select_board board_id (boards st) = Some r -> id board = board_id ->
  update_board now board_id board st
  = (Ok board,
     with_boards st (update_where board_id (set_from_board now board) (boards st))).
Proof.
  intros Hsel Hid. unfold update_board.
  rewrite (proj2 (String.eqb_eq _ _) Hid), Hsel. reflexivity.
Qed.

Lemma update_board_Ok_inv (now board_id : string) (board resp : PCBBoard)
    (st st' : Store) :
  update_board now board_id board st = (Ok resp, st') ->
  id board = board_id /\ exists r, select_board board_id (boards st) = Some r.
Proof.
  unfold update_board. intros H.
  destruct (String.eqb (id board) board_id) eqn:E; simpl in H; [|discriminate].
  apply String.eqb_eq in E. split; [exact E|].
  destruct (select_board board_id (boards st)) as [r|]; [eauto | discriminate].
Qed.

(** ** Update *)

Lemma pinned_with_deleted (board_id created : string) (b : PCBBoard) :
  isDeleted b <> None ->
  with_deleted (Some (or_false (isDeleted b))) (deletedAt b) (pinned board_id created b)
  = pinned board_id created b.
Proof.
  destruct b as [i bn pn rv pj ad ia pf nr sts ca [[|]|] da]; simpl;
    intros H; [reflexivity | reflexivity | contradiction].
Qed.

Lemma update_board_effect (now board_id : string) (payload : PCBBoard) (st : Store)
    (r : BoardRow) :
  select_board board_id (boards st) = Some r ->
  id payload = board_id ->
  let st' :=
    with_boards st (update_where board_id (set_from_board now payload) (boards st)) in
  update_board now board_id payload st = (Ok payload, st')
  /\ get_board board_id st'
     = (Ok (with_deleted (Some (or_false (isDeleted payload))) (deletedAt payload)
              (pinned board_id (r_created_at r) payload)), st')
  /\ select_board board_id (boards st') = Some (set_from_board now payload r).
Proof.
  intros Hsel Hid st'.
  pose proof (select_board_Some _ _ _ Hsel) as [Hrid _].
  assert (Hsel' : select_board board_id (boards st')
                  = Some (set_from_board now payload r)).
  { unfold st'. cbn [boards with_boards].
    rewrite select_update_where_eq by apply set_from_board_id.
    rewrite Hsel. reflexivity. }
  split; [apply (update_board_success _ _ _ _ r Hsel Hid)|].
  split; [|exact Hsel'].
  unfold get_board. rewrite Hsel', board_of_updated_row, Hrid. reflexivity.
Qed.

(** C3, as the code has it.  An Update of an existing board with a payload
    whose id is the addressed one writes every column but [id] and
    [created_at] from the payload and sets [updated_at] to the clock; Get
    then returns the payload with [id] and [createdAt] as stored, and with
    a null [isDeleted] read back as false.  When the payload's [isDeleted]
    is not null, Get returns exactly the pinned payload.  Other boards, the
    change log and the users are untouched. *)
Theorem update_then_get (now board_id : string) (payload : PCBBoard) (st : Store)
    (r : BoardRow) :
  select_board board_id (boards st) = Some r ->
  id payload = board_id ->
  exists st',
    update_board now board_id payload st = (Ok payload, st')
    /\ get_board board_id st'
       = (Ok (with_deleted (Some (or_false (isDeleted payload))) (deletedAt payload)
                (pinned board_id (r_created_at r) payload)), st')
    /\ (isDeleted payload <> None ->
        get_board board_id st' = (Ok (pinned board_id (r_created_at r) payload), st'))
    /\ (exists r', select_board board_id (boards st') = Some r'
                   /\ r' = set_from_board now payload r
                   /\ r_id r' = board_id
                   /\ r_created_at r' = r_created_at r
                   /\ r_updated_at r' = now)
    /\ (forall other, other <> board_id ->
        select_board other (boards st') = select_board other (boards st))
    /\ change_log st' = change_log st
    /\ users st' = users st.
Proof.
  intros Hsel Hid.
  pose proof (select_board_Some _ _ _ Hsel) as [Hrid _].
  destruct (update_board_effect now board_id payload st r Hsel Hid)
    as (Hup & Hget & Hsel').
  eexists. split; [exact Hup|].
  split; [exact Hget|].
  split.
  { intros Hnn. rewrite Hget, pinned_with_deleted by exact Hnn. reflexivity. }
  split.
  { exists (set_from_board now payload r).
    repeat split; [exact Hsel' | exact Hrid]. }
  split.
  { intros other Hne. cbn [boards with_boards].
    apply select_update_where_ne; [apply set_from_board_id | exact Hne]. }
  split; reflexivity.
Qed.

Lemma update_then_get_witness :
  exists st',
    update_board "2024-06-01T08:30:00+00:00" alpha_id
      (with_deleted (Some true) (Some "2024-05-31") alpha_board) one_board
    = (Ok (with_deleted (Some true) (Some "2024-05-31") alpha_board), st')
    /\ fst (get_board alpha_id st')
       = Ok (with_deleted (Some true) (Some "2024-05-31") alpha_board).
Proof.
  destruct (update_then_get "2024-06-01T08:30:00+00:00" alpha_id
              (with_deleted (Some true) (Some "2024-05-31") alpha_board) one_board
              _ ltac:(vm_compute; reflexivity) eq_refl)
    as (st' & Hup & _ & Hget & _).
  exists st'. split; [exact Hup|].
  rewrite Hget by discriminate. reflexivity.
Defined.

(** C3 as stated fails on a payload whose [isDeleted] is null: the column
    holds 0 and Get returns false, not the payload's null. *)
Lemma update_null_isDeleted_reads_false :
  let payload := with_deleted None None alpha_board in
  let st' := snd (update_board "2024-06-01T08:30:00+00:00" alpha_id payload one_board) in
  select_board alpha_id (boards one_board) <> None
  /\ id payload = alpha_id
  /\ fst (update_board "2024-06-01T08:30:00+00:00" alpha_id payload one_board)
     = Ok payload
  /\ option_map isDeleted
       (match fst (get_board alpha_id st') with Ok b => Some b | Raise _ => None end)
     = Some (Some false)
  /\ fst (get_board alpha_id st')
     <> Ok (pinned alpha_id "2024-05-01T10:00:00+00:00" payload).
Proof.
  cbv zeta. split; [vm_compute; discriminate|].
  split; [reflexivity|].
  split; [vm_compute; reflexivity|].
  split; [vm_compute; reflexivity|].
  intros H.
  assert (Hd : option_map isDeleted
                 (match fst (get_board alpha_id
                          (snd (update_board "2024-06-01T08:30:00+00:00" alpha_id
                                  (with_deleted None None alpha_board) one_board)))
                  with Ok b => Some b | Raise _ => None end)
               = Some None)
    by (rewrite H; reflexivity).
  vm_compute in Hd. discriminate.
Qed.

(** C4, as the code has it.  A payload whose id differs from the addressed
    one is refused with 400 and the store is left as it was, whether or not
    the addressed id exists; a payload whose id is the addressed one, for
    an id that is not in the store, is refused with 404, the store again
    left as it was. *)
Theorem update_rejections (now board_id : string) (payload : PCBBoard) (st : Store) :
  (id payload <> board_id ->
   update_board now board_id payload st = (Raise IdMismatch, st))
  /\ (id payload = board_id ->
      select_board board_id (boards st) = None ->
      update_board now board_id payload st = (Raise NotFound, st)).
Proof.
  unfold update_board. split.
  - intros Hne. apply String.eqb_neq in Hne. rewrite Hne. reflexivity.
  - intros Heq Hnone. apply String.eqb_eq in Heq. rewrite Heq, Hnone. reflexivity.
Qed.

Lemma update_rejections_witness :
  update_board "2024-06-01T08:30:00+00:00" "other-id" alpha_board one_board
  = (Raise IdMismatch, one_board)
  /\ update_board "2024-06-01T08:30:00+00:00" alpha_id alpha_board init_db
     = (Raise NotFound, init_db).
Proof.
  split.
  - apply (proj1 (update_rejections _ "other-id" alpha_board one_board)).
    vm_compute. discriminate.
  - apply (proj2 (update_rejections _ alpha_id alpha_board init_db));
      reflexivity.
Defined.

(** C4 as stated fails when the addressed id is missing and the payload
    names another id: the answer is 400, not 404. *)
Lemma update_missing_id_with_mismatch_is_400 :
  select_board "no-such-id" (boards init_db) = None
  /\ id alpha_board <> "no-such-id"
  /\ fst (update_board "2024-06-01T08:30:00+00:00" "no-such-id" alpha_board init_db)
     = Raise (HTTPException 400 "Board ID mismatch")
  /\ fst (update_board "2024-06-01T08:30:00+00:00" "no-such-id" alpha_board init_db)
     <> Raise NotFound.
Proof.
  split; [reflexivity|].
  split; [vm_compute; discriminate|].
  split; [reflexivity|].
  vm_compute. discriminate.
Qed.

(** C10. A successful Update answers with the payload itself, not with
    what it stored: the stored [created_at] is the one from before, Get
    returns it, and the response differs from that Get on [createdAt]
    whenever the payload carried another value. *)
Theorem update_response_is_payload (now board_id : string) (payload resp : PCBBoard)
    (st st' : Store) :
  update_board now board_id payload st = (Ok resp, st') ->
  resp = payload
  /\ exists r r' b',
       select_board board_id (boards st) = Some r
       /\ select_board board_id (boards st') = Some r'
       /\ r_created_at r' = r_created_at r
       /\ get_board board_id st' = (Ok b', st')
       /\ createdAt b' = r_created_at r
       /\ (createdAt payload <> r_created_at r -> createdAt resp <> createdAt b').
Proof.
  intros Hup.
  destruct (update_board_Ok_inv _ _ _ _ _ _ Hup) as [Hid [r Hsel]].
  destruct (update_board_effect now board_id payload st r Hsel Hid)
    as (Hup' & Hget & Hsel').
  rewrite Hup' in Hup. injection Hup as <- <-.
  split; [reflexivity|].
  eexists r, _, _. split; [exact Hsel|].
  split; [exact Hsel'|].
  split; [reflexivity|].
  split; [exact Hget|].
  split; [reflexivity|].
  simpl. intros Hne. exact Hne.
Qed.

Lemma update_response_is_payload_witness :
  let payload := pinned alpha_id "1999-01-01T00:00:00+00:00" alpha_board in
  exists b',
    fst (get_board alpha_id
           (snd (update_board "2024-06-01T08:30:00+00:00" alpha_id payload one_board)))
    = Ok b'
    /\ createdAt payload <> createdAt b'.
Proof.
  cbv zeta.
  destruct (update_response_is_payload "2024-06-01T08:30:00+00:00" alpha_id
              (pinned alpha_id "1999-01-01T00:00:00+00:00" alpha_board) _ one_board _
              eq_refl)
    as (_ & r & r' & b' & Hsel & _ & _ & Hget & _ & Hne).
  exists b'. split; [exact (f_equal fst Hget)|].
  apply Hne. vm_compute in Hsel. injection Hsel as <-.
  vm_compute. discriminate.
Defined.

(** ** Create *)

Lemma uuid_str_length (n : N) : String.length (uuid_str n) = 36.
Proof. reflexivity. Qed.

Lemma uuid_str_nonempty (n : N) : uuid_str n <> EmptyString.
Proof.
  intros H. apply (f_equal String.length) in H.
  rewrite uuid_str_length in H. discriminate.
Qed.

Lemma select_board_app_new (board_id : string) (rows : list BoardRow) (r : BoardRow) :
  select_board board_id rows = None -> r_id r = board_id ->
  select_board board_id (rows ++ [r]) = Some r.
Proof.
  unfold select_board. intros Hnone Hid.
  induction rows as [|x rows IH]; simpl in *.
  - rewrite (proj2 (has_id_true _ _) Hid). reflexivity.
  - destruct (has_id board_id x); [discriminate | apply IH, Hnone].
Qed.

Lemma default_stages_valid :
  validate_stages (JArr build_default_stages) = Some (map spec_stage STAGE_TEMPLATES).
Proof. apply build_stages_from_spec. Qed.

(** C2. Whatever the request and whatever the store already holds (boards
    with the same part number and revision included), Create with an
    identifier that is not yet a key of the table succeeds; the board has
    the generated identifier, which is 36 characters long, the clock's
    text as [createdAt], an empty [arrivedDate], [isArrived] false, no
    [passFailStatus], [isDeleted] false, no [deletedAt], the request's
    descriptive fields and the default stages, whose first stage is
    Pre-Schematics with Requirements Available, unapproved, as its first
    task.  The rows already stored are kept and Get returns the board. *)
Theorem create_board_ok (uuid : N) (now : string) (req : CreateBoardRequest)
    (st : Store) :
  select_board (uuid_str uuid) (boards st) = None ->
  exists b st',
    create_board uuid now req st = (Ok b, st')
    /\ id b = uuid_str uuid
    /\ id b <> EmptyString
    /\ String.length (id b) = 36
    /\ boardName b = req_boardName req
    /\ partNumber b = req_partNumber req
    /\ revision b = req_revision req
    /\ project b = req_project req
    /\ isNewRevision b = req_isNewRevision req
    /\ createdAt b = now
    /\ arrivedDate b = EmptyString
    /\ isArrived b = false
    /\ passFailStatus b = None
    /\ isDeleted b = Some false
    /\ deletedAt b = None
    /\ validate_stages (JArr build_default_stages) = Some (stages b)
    /\ (exists s0 rest t0 ts,
          stages b = s0 :: rest
          /\ stage_name s0 = "Pre-Schematics"
          /\ stage_tasks s0 = Some (t0 :: ts)
          /\ t0 = mkTask "Requirements Available" false false None None None)
    /\ get_board (id b) st' = (Ok b, st')
    /\ (forall r, In r (boards st) -> In r (boards st'))
    /\ change_log st' = change_log st
    /\ users st' = users st.
Proof.
  intros Hfresh.
  unfold create_board.
  rewrite (proj2 (select_board_existsb _ _) Hfresh).
  unfold validate_board.
  cbn -[validate_stages build_default_stages uuid_str STAGE_TEMPLATES].
  rewrite default_stages_valid.
  cbn -[validate_stages build_default_stages uuid_str STAGE_TEMPLATES].
  eexists _, _. split; [reflexivity|].
  cbn -[validate_stages build_default_stages uuid_str STAGE_TEMPLATES].
  split; [reflexivity|].
  split; [apply uuid_str_nonempty|].
  split; [apply uuid_str_length|].
  do 11 (split; [reflexivity|]).
  split; [apply default_stages_valid|].
  split.
  { eexists _, _, _, _. repeat split; reflexivity. }
  split.
  { unfold get_board. cbn [boards with_boards].
    rewrite (select_board_app_new _ _ _ Hfresh) by reflexivity.
    unfold board_of_row, validate_board, row_to_board_dict.
    cbn -[validate_stages build_default_stages uuid_str STAGE_TEMPLATES].
    rewrite default_stages_valid.
    destruct (req_isNewRevision req); reflexivity. }
  split.
  { intros r Hr. apply in_or_app. left. exact Hr. }
  split; reflexivity.
Qed.

Lemma create_board_ok_witness :
  exists b st',
    create_board alpha_uuid "2024-05-01T10:00:00+00:00" alpha_request init_db
    = (Ok b, st')
    /\ b = alpha_board
    /\ id b <> EmptyString.
Proof.
  destruct (create_board_ok alpha_uuid "2024-05-01T10:00:00+00:00" alpha_request
              init_db eq_refl)
    as (b & st' & Hc & _ & Hne & _).
  exists b, st'. split; [exact Hc|]. split; [|exact Hne].
  vm_compute in Hc. injection Hc as <- _. vm_compute. reflexivity.
Defined.

(** ** The text order is a total preorder *)

Lemma lex_leb_total (a b : list N) : lex_leb a b = true \/ lex_leb b a = true.
Proof.
  revert b. induction a as [|x a IH]; intros [|y b]; simpl; auto.
  destruct (N.ltb_spec x y), (N.eqb_spec x y), (N.ltb_spec y x), (N.eqb_spec y x);
    auto; lia.
Qed.

Lemma lex_leb_trans (a b c : list N) :
  lex_leb a b = true -> lex_leb b c = true -> lex_leb a c = true.
Proof.
  revert b c. induction a as [|x a IH]; intros [|y b] [|z c]; simpl;
    try reflexivity; try discriminate.
  destruct (N.ltb_spec x y), (N.eqb_spec x y), (N.ltb_spec y z), (N.eqb_spec y z),
    (N.ltb_spec x z), (N.eqb_spec x z);
    try reflexivity; try discriminate; try lia.
  apply IH.
Qed.

Lemma lex_leb_antisym (a b : list N) :
  lex_leb a b = true -> lex_leb b a = true -> a = b.
Proof.
  revert b. induction a as [|x a IH]; intros [|y b]; simpl;
    try reflexivity; try discriminate.
  destruct (N.ltb_spec x y), (N.eqb_spec x y), (N.ltb_spec y x), (N.eqb_spec y x);
    try discriminate; try lia.
  intros H1 H2. subst. f_equal. apply IH; assumption.
Qed.

#[global] Instance lex_le_total : Total lex_le.
Proof. intros a b. apply lex_leb_total. Qed.

#[global] Instance lex_le_trans : Transitive lex_le.
Proof. intros a b c. apply lex_leb_trans. Qed.

#[global] Instance desc_total {A : Type} (key : A -> string) : Total (desc key).
Proof. intros a b. unfold desc, text_le. destruct (lex_leb_total (bytes (key a)) (bytes (key b))); auto. Qed.

#[global] Instance desc_trans {A : Type} (key : A -> string) : Transitive (desc key).
Proof. intros a b c Hab Hbc. unfold desc, text_le in *. eapply lex_leb_trans; eassumption. Qed.

Lemma order_by_desc_sorted {A : Type} (key : A -> string) (rows : list A) :
  StronglySorted (desc key) (order_by_desc key rows).
Proof. apply StronglySorted_merge_sort; apply _. Qed.

Lemma order_by_desc_perm {A : Type} (key : A -> string) (rows : list A) :
  order_by_desc key rows ≡ₚ rows.
Proof. apply merge_sort_Permutation. Qed.

Lemma order_by_name_sorted (names : list Name) :
  StronglySorted lex_le (order_by_name names).
Proof. apply StronglySorted_merge_sort; apply _. Qed.

Lemma order_by_name_perm (names : list Name) : order_by_name names ≡ₚ names.
Proof. apply merge_sort_Permutation. Qed.

(** A comprehension over sorted rows is sorted when it keeps the key. *)
Lemma StronglySorted_mapM {A B : Type} (f : A -> option B) (ka : A -> string)
    (kb : B -> string) (l : list A) (k : list B) :
  (forall x y, f x = Some y -> kb y = ka x) ->
  mapM f l = Some k ->
  StronglySorted (desc ka) l -> StronglySorted (desc kb) k.
Proof.
  intros Hkey Hm. apply mapM_Some_1 in Hm.
  induction Hm as [|x y l k Hxy Hlk IH]; intros Hs; [constructor|].
  apply StronglySorted_inv in Hs as [Hs Hall].
  constructor; [apply IH, Hs|].
  clear IH Hs. induction Hlk as [|x' y' l k Hxy' Hlk IH]; [constructor|].
  inversion Hall as [|? ? Hd Hall']; subst.
  constructor; [|apply IH, Hall'].
  unfold desc in *. rewrite (Hkey _ _ Hxy), (Hkey _ _ Hxy'). exact Hd.
Qed.

Lemma mapM_omap {A B : Type} (f : A -> option B) (l : list A) :
  Forall (fun x => is_Some (f x)) l -> mapM f l = Some (omap f l).
Proof.
  induction 1 as [|x l [y Hy] _ IH]; simpl; [reflexivity|].
  rewrite Hy, IH. reflexivity.
Qed.

Lemma omap_filter {A B : Type} (f : A -> option B) (p : A -> Prop) (q : B -> Prop)
    `{forall x, Decision (p x)} `{forall y, Decision (q y)} (l : list A) :
  (forall x y, f x = Some y -> (q y <-> p x)) ->
  omap f (filter p l) = filter q (omap f l).
Proof.
  intros Hpq. induction l as [|x l IH]; [reflexivity|].
  rewrite filter_cons. destruct (decide (p x)) as [Hp|Hp]; csimpl;
    destruct (f x) as [y|] eqn:E; rewrite ?filter_cons, IH; try reflexivity.
  - destruct (decide (q y)) as [Hq|Hq]; [reflexivity|].
    exfalso. apply Hq, (Hpq x y E), Hp.
  - destruct (decide (q y)) as [Hq|Hq]; [|reflexivity].
    exfalso. apply Hp, (Hpq x y E), Hq.
Qed.

(** ** Stripping *)

Lemma lstrip_lstripped (s : Name) : lstripped (lstrip s).
Proof.
  induction s as [|c s IH]; simpl; [exact I|].
  destruct (isspace c) eqn:E; [exact IH | exact E].
Qed.

Lemma lstrip_fixed (s : Name) : lstripped s -> lstrip s = s.
Proof. destruct s as [|c s]; simpl; [reflexivity|]. intros ->. reflexivity. Qed.

Lemma lstrip_idem (s : Name) : lstrip (lstrip s) = lstrip s.
Proof. apply lstrip_fixed, lstrip_lstripped. Qed.

Lemma lstrip_snoc (s : Name) (c : N) :
  isspace c = false -> lstrip (s ++ [c]) = lstrip s ++ [c].
Proof.
  intros Hc. induction s as [|x s IH]; simpl.
  - rewrite Hc. reflexivity.
  - destruct (isspace x); [exact IH | reflexivity].
Qed.

Lemma rstrip_cons (c : N) (s : Name) :
  isspace c = false -> rstrip (c :: s) = c :: rstrip s.
Proof.
  intros Hc. unfold rstrip. simpl.
  rewrite (lstrip_snoc _ _ Hc), rev_app_distr. reflexivity.
Qed.

Lemma rstrip_lstripped (s : Name) : lstripped s -> lstripped (rstrip s).
Proof.
  destruct s as [|c s]; simpl; [intros _; exact I|].
  intros Hc. rewrite (rstrip_cons _ _ Hc). exact Hc.
Qed.

Lemma rstrip_idem (s : Name) : rstrip (rstrip s) = rstrip s.
Proof. unfold rstrip. rewrite rev_involutive, lstrip_idem. reflexivity. Qed.

Lemma strip_idem (s : Name) : strip (strip s) = strip s.
Proof.
  unfold strip.
  rewrite (lstrip_fixed (rstrip (lstrip s)))
    by apply rstrip_lstripped, lstrip_lstripped.
  apply rstrip_idem.
Qed.

Lemma strip_wf_name (s : Name) : strip s <> [] -> wf_name (strip s).
Proof. intros H. split; [exact H | apply strip_idem]. Qed.

(** ** Rows and the boards built from them *)

Lemma board_of_row_fields (r : BoardRow) (b : PCBBoard) :
  board_of_row r = Some b ->
  id b = r_id r /\ createdAt b = r_created_at r
  /\ isDeleted b = Some (py_bool (r_is_deleted r))
  /\ deletedAt b = r_deleted_at r.
Proof.
  unfold board_of_row, validate_board.
  destruct (validate_pass_fail _); [|discriminate].
  destruct (validate_stages _); [|discriminate].
  intros [= <-]. repeat split.
Qed.

Lemma board_of_set_deleted (flag : Z) (d : option string) (u : string)
    (r : BoardRow) (b : PCBBoard) :
  board_of_row r = Some b ->
  board_of_row (set_deleted flag d u r) = Some (with_deleted (Some (py_bool flag)) d b).
Proof.
  unfold board_of_row, validate_board, row_to_board_dict, set_deleted.
  cbn -[validate_stages validate_pass_fail py_bool or_empty].
  destruct (validate_pass_fail _); [|discriminate].
  destruct (validate_stages _); [|discriminate].
  intros [= <-]. reflexivity.
Qed.

Lemma board_of_created_row (board_id now : string) (req : CreateBoardRequest) :
  is_Some (board_of_row
    {| r_id := board_id;
       r_board_name := req_boardName req;
       r_part_number := req_partNumber req;
       r_revision := req_revision req;
       r_project := req_project req;
       r_is_new_revision := sql_bool (req_isNewRevision req);
       r_arrived_date := EmptyString;
       r_is_arrived := 0;
       r_pass_fail_status := None;
       r_stages_json := JArr build_default_stages;
       r_created_at := now;
       r_updated_at := now;
       r_is_deleted := 0;
       r_deleted_at := None |}).
Proof.
  unfold board_of_row, validate_board, row_to_board_dict.
  cbn -[validate_stages build_default_stages].
  rewrite default_stages_valid. eexists. reflexivity.
Qed.

Lemma update_where_Forall (P : BoardRow -> Prop) (board_id : string)
    (set : BoardRow -> BoardRow) (rows : list BoardRow) :
  (forall r, P r -> P (set r)) ->
  Forall P rows -> Forall P (update_where board_id set rows).
Proof.
  intros Hset. unfold update_where. induction 1 as [|r rows Hr _ IH]; simpl.
  - constructor.
  - constructor; [|exact IH]. destruct (has_id board_id r); auto.
Qed.

Lemma wf_board_row_In (st : Store) (r : BoardRow) :
  wf_store st -> In r (boards st) -> wf_board_row r.
Proof.
  intros (Hb & _ & _) Hin. rewrite Forall_forall in Hb.
  apply Hb, list_elem_of_In, Hin.
Qed.

Lemma wf_selected (st : Store) (board_id : string) (r : BoardRow) :
  wf_store st -> select_board board_id (boards st) = Some r ->
  board_id <> EmptyString /\ exists b, board_of_row r = Some b.
Proof.
  intros Hwf Hsel. apply select_board_Some in Hsel as [Hid Hin].
  destruct (wf_board_row_In _ _ Hwf Hin) as [Hne [b Hb]].
  split; [congruence | eauto].
Qed.

(** ** Every endpoint keeps the store well formed *)

Lemma wf_store_init : wf_store init_db.
Proof. repeat split; constructor. Qed.

Lemma wf_create (uuid : N) (now : string) (req : CreateBoardRequest) (st : Store) :
  wf_store st -> wf_store (snd (create_board uuid now req st)).
Proof.
  intros (Hb & Hc & Hu). unfold create_board.
  destruct (existsb _ _); simpl; [repeat split; assumption|].
  repeat split; try assumption.
  apply Forall_app. split; [exact Hb|].
  constructor; [|constructor].
  split; [apply uuid_str_nonempty | apply board_of_created_row].
Qed.

Lemma wf_update (now board_id : string) (board : PCBBoard) (st : Store) :
  wf_store st -> wf_store (snd (update_board now board_id board st)).
Proof.
  intros (Hb & Hc & Hu). unfold update_board.
  destruct (negb _); simpl; [repeat split; assumption|].
  destruct (select_board _ _); simpl; repeat split; try assumption.
  apply update_where_Forall; [|exact Hb].
  intros r [Hne _]. split; [exact Hne|].
  rewrite board_of_updated_row. eexists. reflexivity.
Qed.

Lemma wf_set_deleted (flag : Z) (d : option string) (u : string) (r : BoardRow) :
  wf_board_row r -> wf_board_row (set_deleted flag d u r).
Proof.
  intros [Hne [b Hb]]. split; [exact Hne|].
  rewrite (board_of_set_deleted _ _ _ _ _ Hb). eexists. reflexivity.
Qed.

Lemma snd_reread (board_id : string) (st : Store) : snd (reread board_id st) = st.
Proof. unfold reread. destruct (select_board _ _); reflexivity. Qed.

Lemma wf_soft_delete (now board_id : string) (st : Store) :
  wf_store st -> wf_store (snd (soft_delete_board now board_id st)).
Proof.
  intros (Hb & Hc & Hu). unfold soft_delete_board.
  destruct (select_board _ _); simpl; [|repeat split; assumption].
  rewrite snd_reread. repeat split; try assumption.
  apply update_where_Forall; [apply wf_set_deleted | exact Hb].
Qed.

Lemma wf_restore (now board_id : string) (st : Store) :
  wf_store st -> wf_store (snd (restore_board now board_id st)).
Proof.
  intros (Hb & Hc & Hu). unfold restore_board.
  destruct (select_board _ _); simpl; [|repeat split; assumption].
  rewrite snd_reread. repeat split; try assumption.
  apply update_where_Forall; [apply wf_set_deleted | exact Hb].
Qed.

Lemma Forall_filter_keep {A : Type} (P Q : A -> Prop) `{forall x, Decision (Q x)}
    (l : list A) :
  Forall P l -> Forall P (filter Q l).
Proof.
  induction 1 as [|x l Hx _ IH]; [constructor|].
  rewrite filter_cons. destruct (decide (Q x)); [constructor|]; assumption.
Qed.

Lemma wf_permanent_delete (board_id : string) (st : Store) :
  wf_store st -> wf_store (snd (permanent_delete_board board_id st)).
Proof.
  intros (Hb & Hc & Hu). unfold permanent_delete_board.
  destruct (select_board _ _); simpl; [|repeat split; assumption].
  repeat split; try assumption; apply Forall_filter_keep; assumption.
Qed.

Lemma wf_add_changelog (uuid : N) (now : string) (req : CreateChangeLogRequest)
    (st : Store) :
  wf_store st -> wf_store (snd (add_changelog uuid now req st)).
Proof.
  intros (Hb & Hc & Hu). unfold add_changelog.
  destruct (existsb _ _); simpl; [repeat split; assumption|].
  repeat split; try assumption.
  apply Forall_app. split; [exact Hc|].
  constructor; [|constructor].
  unfold wf_change_row, entry_of_row, validate_entry, row_to_changelog_dict.
  cbn -[validate_role]. rewrite validate_role_text. eexists. reflexivity.
Qed.

Lemma wf_add_user (name : Name) (st : Store) :
  wf_store st -> wf_store (snd (add_user name st)).
Proof.
  intros (Hb & Hc & Hu). unfold add_user.
  destruct (strip name) as [|c s] eqn:E; simpl; [repeat split; assumption|].
  repeat split; try assumption. simpl.
  unfold insert_or_ignore. destruct (decide _); [exact Hu|].
  apply Forall_app. split; [exact Hu|].
  constructor; [|constructor].
  rewrite <- E. apply strip_wf_name. rewrite E. discriminate.
Qed.

Lemma wf_remove_user (name : Name) (st : Store) :
  wf_store st -> wf_store (snd (remove_user name st)).
Proof.
  intros (Hb & Hc & Hu). unfold remove_user. simpl.
  repeat split; try assumption. apply Forall_filter_keep. exact Hu.
Qed.

Lemma wf_store_step (st st' : Store) : wf_store st -> step st st' -> wf_store st'.
Proof.
  intros Hwf Hstep. destruct Hstep.
  - apply wf_create, Hwf.
  - apply wf_update, Hwf.
  - apply wf_soft_delete, Hwf.
  - apply wf_restore, Hwf.
  - apply wf_permanent_delete, Hwf.
  - apply wf_add_changelog, Hwf.
  - apply wf_add_user, Hwf.
  - apply wf_remove_user, Hwf.
Qed.

(** Every store the endpoints can produce from the empty database is well
    formed. *)
Lemma wf_store_reachable (st : Store) : reachable st -> wf_store st.
Proof.
  induction 1 as [|st st' _ IH Hstep]; [apply wf_store_init|].
  apply (wf_store_step st st' IH Hstep).
Qed.

(** ** Soft delete *)

Lemma soft_delete_effect (now board_id : string) (st : Store) (r : BoardRow)
    (b : PCBBoard) :
  select_board board_id (boards st) = Some r ->
  board_of_row r = Some b ->
  let st' :=
    with_boards st
      (update_where board_id (set_deleted 1 (Some now) now) (boards st)) in
  soft_delete_board now board_id st
  = (Ok (with_deleted (Some true) (Some now) b), st')
  /\ select_board board_id (boards st') = Some (set_deleted 1 (Some now) now r).
Proof.
  intros Hsel Hb st'.
  assert (Hsel' : select_board board_id (boards st')
                  = Some (set_deleted 1 (Some now) now r)).
  { unfold st'. cbn [boards with_boards].
    rewrite select_update_where_eq by (intros; apply set_deleted_id).
    rewrite Hsel. reflexivity. }
  split; [|exact Hsel'].
  unfold soft_delete_board. rewrite Hsel. fold st'.
  unfold reread. rewrite Hsel', (board_of_set_deleted _ _ _ _ _ Hb). reflexivity.
Qed.

(** C5. On a well-formed store SoftDelete of a missing id is refused with
    404 and changes nothing.  For a stored id it answers with the stored
    board, [isDeleted] set and [deletedAt] the clock's text; the row keeps
    every other column and has [updated_at] the clock's text too; other
    boards, the change log and the users are untouched.  A second
    SoftDelete at a later clock text answers with the same board again,
    [isDeleted] still set and only [deletedAt] moved to the later text. *)
Theorem soft_delete_board_spec (now board_id : string) (st : Store) :
  wf_store st ->
  (select_board board_id (boards st) = None ->
   soft_delete_board now board_id st = (Raise NotFound, st))
  /\ (forall r, select_board board_id (boards st) = Some r ->
      exists b st',
        board_of_row r = Some b
        /\ soft_delete_board now board_id st
           = (Ok (with_deleted (Some true) (Some now) b), st')
        /\ get_board board_id st'
           = (Ok (with_deleted (Some true) (Some now) b), st')
        /\ select_board board_id (boards st')
           = Some (set_deleted 1 (Some now) now r)
        /\ r_updated_at (set_deleted 1 (Some now) now r) = now
        /\ (forall other, other <> board_id ->
            select_board other (boards st') = select_board other (boards st))
        /\ change_log st' = change_log st
        /\ users st' = users st
        /\ forall later, exists st'',
             soft_delete_board later board_id st'
             = (Ok (with_deleted (Some true) (Some later) b), st'')
             /\ select_board board_id (boards st'')
                = Some (set_deleted 1 (Some later) later r)).
Proof.
  intros Hwf. split.
  - intros Hnone. unfold soft_delete_board. rewrite Hnone. reflexivity.
  - intros r Hsel.
    destruct (wf_selected _ _ _ Hwf Hsel) as [_ [b Hb]].
    destruct (soft_delete_effect now board_id st r b Hsel Hb) as [Hdel Hsel'].
    exists b. eexists. split; [exact Hb|].
    split; [exact Hdel|].
    split.
    { unfold get_board. rewrite Hsel', (board_of_set_deleted _ _ _ _ _ Hb).
      reflexivity. }
    split; [exact Hsel'|].
    split; [reflexivity|].
    split.
    { intros other Hne. cbn [boards with_boards].
      apply select_update_where_ne; [intros; apply set_deleted_id | exact Hne]. }
    split; [reflexivity|].
    split; [reflexivity|].
    intros later.
    destruct (soft_delete_effect later board_id _ _ _ Hsel'
                (board_of_set_deleted _ _ _ _ _ Hb)) as [Hdel2 Hsel2].
    eexists. split; [exact Hdel2 | exact Hsel2].
Qed.

Lemma wf_one_board : wf_store one_board.
Proof. apply wf_create, wf_store_init. Qed.

Lemma wf_two_boards : wf_store two_boards.
Proof. apply wf_soft_delete, wf_create, wf_one_board. Qed.

Lemma wf_logged : wf_store logged.
Proof. do 2 apply wf_add_changelog. apply wf_two_boards. Qed.

Lemma soft_delete_board_spec_witness :
  exists st' st'',
    soft_delete_board "2024-05-03T09:00:00+00:00" alpha_id one_board
    = (Ok (with_deleted (Some true) (Some "2024-05-03T09:00:00+00:00") alpha_board),
       st')
    /\ soft_delete_board "2024-05-09T09:00:00+00:00" alpha_id st'
       = (Ok (with_deleted (Some true) (Some "2024-05-09T09:00:00+00:00") alpha_board),
          st'').
Proof.
  destruct (proj2 (soft_delete_board_spec "2024-05-03T09:00:00+00:00" alpha_id
                     one_board wf_one_board) _ ltac:(vm_compute; reflexivity))
    as (b & st' & Hb & Hdel & _ & _ & _ & _ & _ & _ & Hagain).
  destruct (Hagain "2024-05-09T09:00:00+00:00") as (st'' & Hdel2 & _).
  vm_compute in Hb. injection Hb as <-.
  exists st', st''. split; [exact Hdel | exact Hdel2].
Defined.

(** ** Listing boards *)

Lemma wf_rows_is_Some (rows : list BoardRow) :
  Forall wf_board_row rows -> Forall (fun r => is_Some (board_of_row r)) rows.
Proof. intros H. apply (Forall_impl _ _ _ H). intros r [_ Hr]. exact Hr. Qed.

(** A comprehension over ordered rows that all build: it holds what the
    rows build, ordered by the same key. *)
Lemma comprehension_ordered {A B : Type} (f : A -> option B) (ka : A -> string)
    (kb : B -> string) (rows : list A) :
  (forall x y, f x = Some y -> kb y = ka x) ->
  Forall (fun r => is_Some (f r)) rows ->
  exists l,
    mapM f (order_by_desc ka rows) = Some l
    /\ l ≡ₚ omap f rows
    /\ StronglySorted (desc kb) l.
Proof.
  intros Hkey Hwf.
  assert (Hs : Forall (fun r => is_Some (f r)) (order_by_desc ka rows))
    by (rewrite (order_by_desc_perm ka rows); exact Hwf).
  exists (omap f (order_by_desc ka rows)).
  pose proof (mapM_omap _ _ Hs) as Hm.
  split; [exact Hm|]. split.
  - rewrite (order_by_desc_perm ka rows). reflexivity.
  - apply (StronglySorted_mapM f ka kb _ _ Hkey Hm), order_by_desc_sorted.
Qed.

Lemma select_all_ordered (rows : list BoardRow) :
  Forall wf_board_row rows ->
  exists l,
    mapM board_of_row (order_by_desc r_created_at rows) = Some l
    /\ l ≡ₚ omap board_of_row rows
    /\ StronglySorted (desc createdAt) l.
Proof.
  intros Hwf. apply comprehension_ordered; [|apply wf_rows_is_Some, Hwf].
  intros r b Hb. apply (board_of_row_fields _ _ Hb).
Qed.

Lemma py_bool_false (z : Z) : py_bool z = false <-> z = 0%Z.
Proof. unfold py_bool. destruct (Z.eqb_spec z 0); simpl; split; congruence. Qed.

Lemma live_board_row (r : BoardRow) (b : PCBBoard) :
  board_of_row r = Some b -> (isDeleted b = Some false <-> r_is_deleted r = 0%Z).
Proof.
  intros Hb. destruct (board_of_row_fields _ _ Hb) as (_ & _ & Hd & _).
  rewrite Hd, <- py_bool_false. split; congruence.
Qed.

Lemma list_boards_all_wf (st : Store) :
  wf_store st ->
  exists all,
    list_boards true st = (Ok all, st) /\ all ≡ₚ omap board_of_row (boards st).
Proof.
  intros (Hb & _ & _).
  destruct (select_all_ordered (boards st) Hb) as (all & Hall & Pall & _).
  exists all. split; [|exact Pall].
  unfold list_boards. rewrite Hall. reflexivity.
Qed.

(** C6. On a well-formed store both listings succeed and leave the store
    as it is.  The listing with deleted boards holds every stored board,
    once per row; the listing without them holds exactly those of the
    former that are not deleted, so none with [isDeleted] true; each is
    ordered by [createdAt], greatest text first. *)
Theorem list_boards_spec (st : Store) :
  wf_store st ->
  exists live all,
    list_boards false st = (Ok live, st)
    /\ list_boards true st = (Ok all, st)
    /\ Forall (fun b => isDeleted b = Some false) live
    /\ all ≡ₚ omap board_of_row (boards st)
    /\ length all = length (boards st)
    /\ (forall r, In r (boards st) -> exists b, board_of_row r = Some b /\ In b all)
    /\ live ≡ₚ filter (fun b => isDeleted b = Some false) all
    /\ StronglySorted (desc createdAt) live
    /\ StronglySorted (desc createdAt) all.
Proof.
  intros Hwf. pose proof Hwf as (Hb & _ & _).
  destruct (select_all_ordered (boards st) Hb) as (all & Hall & Pall & Sall).
  destruct (select_all_ordered
              (filter (fun r => r_is_deleted r = 0%Z) (boards st))
              (Forall_filter_keep _ _ _ Hb))
    as (live & Hlive & Plive & Slive).
  assert (Plive' : live ≡ₚ filter (fun b => isDeleted b = Some false) all).
  { rewrite Plive, Pall. rewrite (omap_filter board_of_row
      (fun r => r_is_deleted r = 0%Z) (fun b => isDeleted b = Some false));
      [reflexivity | exact live_board_row]. }
  exists live, all.
  split; [unfold list_boards; rewrite Hlive; reflexivity|].
  split; [unfold list_boards; rewrite Hall; reflexivity|].
  split.
  { rewrite Plive'. apply Forall_forall. intros b Hb'.
    apply list_elem_of_filter in Hb' as [Hd _]. exact Hd. }
  split; [exact Pall|].
  split.
  { apply mapM_Some_1, Forall2_length in Hall. rewrite <- Hall.
    apply Permutation_length, order_by_desc_perm. }
  split.
  { intros r Hr. destruct (wf_board_row_In _ _ Hwf Hr) as [_ [b Hbr]].
    exists b. split; [exact Hbr|].
    apply list_elem_of_In. rewrite Pall. apply list_elem_of_omap.
    exists r. split; [apply list_elem_of_In, Hr | exact Hbr]. }
  split; [exact Plive'|].
  split; assumption.
Qed.

Lemma list_boards_spec_witness :
  exists live all,
    list_boards false two_boards = (Ok live, two_boards)
    /\ list_boards true two_boards = (Ok all, two_boards)
    /\ map id live = [beta_id]
    /\ map id all = [beta_id; alpha_id]
    /\ map isDeleted all = [Some false; Some true].
Proof.
  destruct (list_boards_spec two_boards wf_two_boards)
    as (live & all & Hl & Ha & _).
  exists live, all. split; [exact Hl|]. split; [exact Ha|].
  vm_compute in Hl, Ha. injection Hl as <-. injection Ha as <-.
  repeat split; reflexivity.
Defined.

(** ** Permanent delete *)

Lemma select_board_filter_ne (board_id other : string) (rows : list BoardRow) :
  other <> board_id ->
  select_board other (filter (fun r => r_id r <> board_id) rows)
  = select_board other rows.
Proof.
  intros Hne. unfold select_board.
  induction rows as [|r rows IH]; [reflexivity|].
  rewrite filter_cons. destruct (decide (r_id r <> board_id)) as [Hr|Hr]; simpl.
  - rewrite IH. reflexivity.
  - assert (E : has_id other r = false)
      by (apply has_id_false; intros E; apply Hr; congruence).
    rewrite E. exact IH.
Qed.

Lemma select_board_filter_eq (board_id : string) (rows : list BoardRow) :
  select_board board_id (filter (fun r => r_id r <> board_id) rows) = None.
Proof.
  apply select_board_None, Forall_forall. intros r Hr.
  apply list_elem_of_filter in Hr as [Hne _]. exact Hne.
Qed.

Lemma filter_none {A : Type} (P : A -> Prop) `{forall x, Decision (P x)} (l : list A) :
  Forall (fun x => ~ P x) l -> filter P l = [].
Proof.
  induction 1 as [|x l Hx _ IH]; [reflexivity|].
  rewrite filter_cons. destruct (decide (P x)); [contradiction | exact IH].
Qed.

Lemma filter_board_id_other (board_id other : string) (log : list ChangeRow) :
  other <> board_id ->
  filter (fun c => Some (c_board_id c) = Some other)
    (filter (fun c => c_board_id c <> board_id) log)
  = filter (fun c => Some (c_board_id c) = Some other) log.
Proof.
  intros Hne. induction log as [|c log IH]; [reflexivity|].
  rewrite (filter_cons (fun c => c_board_id c <> board_id)).
  destruct (decide (c_board_id c <> board_id)) as [Hc|Hc].
  - rewrite !filter_cons, IH. reflexivity.
  - rewrite IH, filter_cons.
    destruct (decide (Some (c_board_id c) = Some other)) as [E|E]; [|reflexivity].
    exfalso. apply Hc. congruence.
Qed.

Lemma truthy_Some (s : string) : s <> EmptyString -> truthy (Some s) = true.
Proof. destruct s; [contradiction | reflexivity]. Qed.

(** C7. On a well-formed store HardDelete of a missing id is refused with
    404 and changes nothing.  For a stored id it answers ok; afterwards no
    row of [boards] and no row of [change_log] carries the id, the listing
    with deleted boards is the former listing without the boards of that
    id, and the change log asked for that id is empty.  Boards with another
    id, change-log rows for another id and the users are as before. *)
Theorem permanent_delete_board_spec (board_id : string) (st : Store) :
  wf_store st ->
  (select_board board_id (boards st) = None ->
   permanent_delete_board board_id st = (Raise NotFound, st))
  /\ (forall r, select_board board_id (boards st) = Some r ->
      exists st' all,
        permanent_delete_board board_id st = (Ok (JObj [("ok", JBool true)]), st')
        /\ select_board board_id (boards st') = None
        /\ get_board board_id st' = (Raise NotFound, st')
        /\ list_boards true st' = (Ok all, st')
        /\ Forall (fun b => id b <> board_id) all
        /\ (forall before, list_boards true st = (Ok before, st) ->
            all ≡ₚ filter (fun b => id b <> board_id) before)
        /\ Forall (fun c => c_board_id c <> board_id) (change_log st')
        /\ get_changelog (Some board_id) st' = (Ok [], st')
        /\ (forall other, other <> board_id ->
            select_board other (boards st') = select_board other (boards st))
        /\ (forall c, In c (change_log st) -> c_board_id c <> board_id ->
            In c (change_log st'))
        /\ (forall other, other <> board_id -> other <> EmptyString ->
            fst (get_changelog (Some other) st') = fst (get_changelog (Some other) st))
        /\ users st' = users st).
Proof.
  intros Hwf. split.
  { intros Hnone. unfold permanent_delete_board. rewrite Hnone. reflexivity. }
  intros r Hsel.
  destruct (wf_selected _ _ _ Hwf Hsel) as [Hne _].
  pose proof (wf_permanent_delete board_id st Hwf) as Hwf'.
  unfold permanent_delete_board in *. rewrite Hsel in *. cbn [snd] in Hwf'.
  set (st' := {| boards := filter (fun r => r_id r <> board_id) (boards st);
                 change_log := filter (fun c => c_board_id c <> board_id) (change_log st);
                 users := users st |}) in *.
  destruct (list_boards_all_wf st' Hwf') as (all & Hall & Pall).
  assert (Pall' : all ≡ₚ filter (fun b => id b <> board_id)
                          (omap board_of_row (boards st))).
  { rewrite Pall. unfold st'. cbn [boards].
    rewrite (omap_filter board_of_row (fun r => r_id r <> board_id)
               (fun b => id b <> board_id)); [reflexivity|].
    intros x y Hxy. destruct (board_of_row_fields _ _ Hxy) as (-> & _). tauto. }
  assert (Hlog : Forall (fun c => c_board_id c <> board_id) (change_log st')).
  { apply Forall_forall. intros c Hc. unfold st' in Hc. cbn [change_log] in Hc.
    apply list_elem_of_filter in Hc as [Hc _]. exact Hc. }
  exists st', all.
  split; [reflexivity|].
  split; [apply select_board_filter_eq|].
  split.
  { unfold get_board. unfold st' at 1. cbn [boards].
    rewrite select_board_filter_eq. reflexivity. }
  split; [exact Hall|].
  split.
  { rewrite Pall'. apply Forall_forall. intros b Hb.
    apply list_elem_of_filter in Hb as [Hb _]. exact Hb. }
  split.
  { intros before Hbefore.
    destruct (list_boards_all_wf st Hwf) as (before' & Hbefore' & Pbefore).
    rewrite Hbefore' in Hbefore. injection Hbefore as ->.
    rewrite Pall', Pbefore. reflexivity. }
  split; [exact Hlog|].
  split.
  { unfold get_changelog. rewrite (truthy_Some _ Hne).
    rewrite filter_none; [reflexivity|].
    apply (Forall_impl _ _ _ Hlog). intros c Hc E. apply Hc. congruence. }
  split.
  { intros other Ho. apply select_board_filter_ne, Ho. }
  split.
  { intros c Hc Hcb. apply list_elem_of_In. unfold st'. cbn [change_log].
    apply list_elem_of_filter. split; [exact Hcb | apply list_elem_of_In, Hc]. }
  split.
  { intros other Ho Hoe. unfold get_changelog.
    rewrite (truthy_Some _ Hoe). unfold st' at 1. cbn [change_log fst].
    rewrite (filter_board_id_other _ _ _ Ho). reflexivity. }
  reflexivity.
Qed.

Lemma permanent_delete_board_spec_witness :
  exists st',
    permanent_delete_board alpha_id logged = (Ok (JObj [("ok", JBool true)]), st')
    /\ get_changelog (Some alpha_id) st' = (Ok [], st')
    /\ map r_id (boards st') = [beta_id]
    /\ map c_board_id (change_log st') = [beta_id]
    /\ permanent_delete_board "no-such-id" logged = (Raise NotFound, logged).
Proof.
  destruct (proj2 (permanent_delete_board_spec alpha_id logged wf_logged)
              _ ltac:(vm_compute; reflexivity))
    as (st' & all & Hdel & _ & _ & _ & _ & _ & _ & Hlog & _).
  exists st'. split; [exact Hdel|]. split; [exact Hlog|].
  vm_compute in Hdel. injection Hdel as <-.
  split; [reflexivity|]. split; [reflexivity|].
  apply (proj1 (permanent_delete_board_spec "no-such-id" logged wf_logged)).
  reflexivity.
Defined.

(** ** Change log *)

Lemma entry_of_row_timestamp (c : ChangeRow) (e : ChangeLogEntry) :
  entry_of_row c = Some e -> cl_timestamp e = c_timestamp c.
Proof.
  unfold entry_of_row, validate_entry.
  destruct (validate_role _); [|discriminate]. intros [= <-]. reflexivity.
Qed.

Lemma fresh_entry_id (entry_id : string) (log : list ChangeRow) :
  Forall (fun c => c_id c <> entry_id) log ->
  existsb (fun c => String.eqb (c_id c) entry_id) log = false.
Proof.
  induction 1 as [|c log Hc _ IH]; simpl; [reflexivity|].
  rewrite (proj2 (String.eqb_neq _ _) Hc). exact IH.
Qed.

Lemma select_log_ordered (log : list ChangeRow) :
  Forall wf_change_row log ->
  exists l,
    mapM entry_of_row (order_by_desc c_timestamp log) = Some l
    /\ l ≡ₚ omap entry_of_row log
    /\ StronglySorted (desc cl_timestamp) l.
Proof.
  intros Hwf. apply comprehension_ordered; [|exact Hwf].
  exact entry_of_row_timestamp.
Qed.

(** On a well-formed store the change log can always be listed, newest
    text first, whatever the filter. *)
Lemma get_changelog_wf (boardId : option string) (st : Store) :
  wf_store st ->
  exists l,
    get_changelog boardId st = (Ok l, st)
    /\ StronglySorted (desc cl_timestamp) l
    /\ l ≡ₚ omap entry_of_row
             (if truthy boardId
              then filter (fun c => Some (c_board_id c) = boardId) (change_log st)
              else change_log st).
Proof.
  intros (_ & Hc & _). unfold get_changelog.
  destruct (truthy boardId).
  - destruct (select_log_ordered _ (Forall_filter_keep _
                (fun c => Some (c_board_id c) = boardId) _ Hc))
      as (l & Hl & Pl & Sl).
    exists l. rewrite Hl. auto.
  - destruct (select_log_ordered _ Hc) as (l & Hl & Pl & Sl).
    exists l. rewrite Hl. auto.
Qed.

(** No endpoint rewrites a change-log row; a row leaves the table only
    with a permanent delete of the board id it names. *)
Lemma change_log_append_only (st st' : Store) :
  step st st' ->
  forall c, In c (change_log st) ->
    In c (change_log st') \/ st' = snd (permanent_delete_board (c_board_id c) st).
Proof.
  intros Hstep c Hc. destruct Hstep.
  - left. unfold create_board. destruct (existsb _ _); exact Hc.
  - left. unfold update_board. destruct (negb _); [exact Hc|].
    destruct (select_board _ _); exact Hc.
  - left. unfold soft_delete_board.
    destruct (select_board _ _); [rewrite snd_reread|]; exact Hc.
  - left. unfold restore_board.
    destruct (select_board _ _); [rewrite snd_reread|]; exact Hc.
  - destruct (decide (c_board_id c = board_id)) as [->|Hne]; [right; reflexivity|].
    left. unfold permanent_delete_board.
    destruct (select_board _ _); [|exact Hc]. cbn [snd change_log].
    apply list_elem_of_In, list_elem_of_filter.
    split; [exact Hne | apply list_elem_of_In, Hc].
  - left. unfold add_changelog. destruct (existsb _ _); [exact Hc|].
    cbn [snd change_log]. apply in_or_app. left. exact Hc.
  - left. unfold add_user. destruct (strip name); exact Hc.
  - left. exact Hc.
Qed.

(** C8. On a well-formed store, whatever the request and whether or not a
    board has the request's [boardId], Append with an identifier that is
    not yet a key of the table succeeds: it answers with the entry made of
    the request, the generated identifier and the clock's text, adds one
    row that builds that entry and touches nothing else.  The change log
    asked for the request's [boardId] then contains the entry, and it and
    the unfiltered change log are ordered by timestamp, greatest text
    first.  No later call alters the row; only a permanent delete of its
    [boardId] removes it. *)
Theorem add_changelog_spec (uuid : N) (now : string) (req : CreateChangeLogRequest)
    (st : Store) :
  wf_store st ->
  Forall (fun c => c_id c <> uuid_str uuid) (change_log st) ->
  exists row st' l everything,
    add_changelog uuid now req st
    = (Ok (entry_of_request (uuid_str uuid) now req), st')
    /\ cl_id (entry_of_request (uuid_str uuid) now req) <> EmptyString
    /\ change_log st' = change_log st ++ [row]
    /\ entry_of_row row = Some (entry_of_request (uuid_str uuid) now req)
    /\ boards st' = boards st
    /\ users st' = users st
    /\ get_changelog (Some (clr_boardId req)) st' = (Ok l, st')
    /\ In (entry_of_request (uuid_str uuid) now req) l
    /\ StronglySorted (desc cl_timestamp) l
    /\ get_changelog None st' = (Ok everything, st')
    /\ In (entry_of_request (uuid_str uuid) now req) everything
    /\ StronglySorted (desc cl_timestamp) everything
    /\ (forall st2, step st' st2 ->
        In row (change_log st2)
        \/ st2 = snd (permanent_delete_board (clr_boardId req) st')).
Proof.
  intros Hwf Hfresh.
  pose proof (wf_add_changelog uuid now req st Hwf) as Hwf'.
  unfold add_changelog in *. rewrite (fresh_entry_id _ _ Hfresh) in *.
  cbn [snd] in Hwf'.
  unfold validate_entry.
  cbn -[validate_role uuid_str] in *. rewrite validate_role_text.
  cbn -[uuid_str].
  match goal with
  | H : wf_store {| boards := _; change_log := _ ++ [?r]; users := _ |} |- _ =>
      set (row := r) in *
  end.
  set (st' := {| boards := boards st; change_log := change_log st ++ [row];
                 users := users st |}) in *.
  assert (Hrow : entry_of_row row = Some (entry_of_request (uuid_str uuid) now req)).
  { unfold entry_of_row, validate_entry, row_to_changelog_dict, row.
    cbn -[validate_role uuid_str]. rewrite validate_role_text. reflexivity. }
  destruct (get_changelog_wf (Some (clr_boardId req)) st' Hwf') as (l & Hl & Sl & Pl).
  destruct (get_changelog_wf None st' Hwf') as (ev & Hev & Sev & Pev).
  exists row, st', l, ev.
  split; [reflexivity|].
  split; [apply uuid_str_nonempty|].
  split; [reflexivity|].
  split; [exact Hrow|].
  split; [reflexivity|].
  split; [reflexivity|].
  split; [exact Hl|].
  split.
  { apply list_elem_of_In. rewrite Pl. apply list_elem_of_omap.
    exists row. split; [|exact Hrow].
    destruct (truthy (Some (clr_boardId req))).
    - apply list_elem_of_filter. split; [reflexivity|].
      unfold st'. cbn [change_log]. apply elem_of_app. right. constructor.
    - unfold st'. cbn [change_log]. apply elem_of_app. right. constructor. }
  split; [exact Sl|].
  split; [exact Hev|].
  split.
  { apply list_elem_of_In. rewrite Pev. apply list_elem_of_omap.
    exists row. split; [|exact Hrow].
    simpl. apply elem_of_app. right. constructor. }
  split; [exact Sev|].
  intros st2 Hstep.
  destruct (change_log_append_only st' st2 Hstep row) as [Hin|Hdel]; auto.
  unfold st'. cbn [change_log]. apply in_or_app. right. left. reflexivity.
Qed.

Lemma add_changelog_spec_witness :
  select_board "no-such-board" (boards one_board) = None
  /\ exists st' l,
       add_changelog 7 "2024-05-05T07:00:00+00:00" sample_log_request one_board
       = (Ok (entry_of_request "00000000-0000-0000-0000-000000000007"
                "2024-05-05T07:00:00+00:00" sample_log_request), st')
       /\ get_changelog (Some "no-such-board") st' = (Ok l, st')
       /\ In (entry_of_request "00000000-0000-0000-0000-000000000007"
                "2024-05-05T07:00:00+00:00" sample_log_request) l.
Proof.
  split; [reflexivity|].
  destruct (add_changelog_spec 7 "2024-05-05T07:00:00+00:00" sample_log_request
              one_board wf_one_board ltac:(constructor))
    as (row & st' & l & ev & Hadd & _ & _ & _ & _ & _ & Hget & Hin & _).
  exists st', l. split; [exact Hadd|]. split; [exact Hget | exact Hin].
Defined.

(** ** Users *)

Lemma with_users_same (st : Store) : with_users st (users st) = st.
Proof. destruct st. reflexivity. Qed.

Lemma insert_or_ignore_present (name : Name) (names : list Name) :
  In name names -> insert_or_ignore name names = names.
Proof.
  intros Hin. unfold insert_or_ignore.
  destruct (decide (name ∈ names)) as [_|Hn]; [reflexivity|].
  exfalso. apply Hn, list_elem_of_In, Hin.
Qed.

Lemma insert_or_ignore_In (name : Name) (names : list Name) :
  In name (insert_or_ignore name names).
Proof.
  unfold insert_or_ignore. destruct (decide (name ∈ names)) as [Hin|_].
  - apply list_elem_of_In, Hin.
  - apply in_or_app. right. left. reflexivity.
Qed.

Lemma insert_or_ignore_keeps (name n : Name) (names : list Name) :
  In n names -> In n (insert_or_ignore name names).
Proof.
  intros Hin. unfold insert_or_ignore. destruct (decide (name ∈ names)).
  - exact Hin.
  - apply in_or_app. left. exact Hin.
Qed.

Lemma add_user_nonempty (name : Name) (st : Store) :
  strip name <> [] ->
  add_user name st
  = (Ok (order_by_name (insert_or_ignore (strip name) (users st))),
     with_users st (insert_or_ignore (strip name) (users st))).
Proof.
  intros Hne. unfold add_user.
  destruct (strip name) as [|c s]; [contradiction | reflexivity].
Qed.

(** C9. Add is refused with 400, the store unchanged, when the name
    strips to the empty text, and succeeds otherwise.  It then stores the
    stripped name unless the roster already has it, keeps every other
    name, touches nothing else, and answers with the whole roster in
    ascending text order.  Adding a name whose stripped form is stored, or
    on a well-formed store a name that is itself stored, changes nothing,
    and so does adding the same name again. *)
Theorem add_user_spec (name : Name) (st : Store) :
  (strip name = [] -> add_user name st = (Raise EmptyName, st))
  /\ (strip name <> [] ->
      exists roster st',
        add_user name st = (Ok roster, st')
        /\ users st' = insert_or_ignore (strip name) (users st)
        /\ In (strip name) (users st')
        /\ (forall n, In n (users st) -> In n (users st'))
        /\ (forall n, In n (users st') -> n = strip name \/ In n (users st))
        /\ roster = order_by_name (users st')
        /\ roster ≡ₚ users st'
        /\ StronglySorted lex_le roster
        /\ boards st' = boards st
        /\ change_log st' = change_log st
        /\ (In (strip name) (users st) -> st' = st)
        /\ (wf_store st -> In name (users st) -> st' = st)
        /\ add_user name st' = (Ok roster, st')).
Proof.
  split.
  { intros E. unfold add_user. rewrite E. reflexivity. }
  intros Hne.
  assert (Hsame : In (strip name) (users st) ->
                  with_users st (insert_or_ignore (strip name) (users st)) = st).
  { intros Hin. rewrite (insert_or_ignore_present _ _ Hin). apply with_users_same. }
  eexists _, _. split; [apply (add_user_nonempty _ _ Hne)|].
  cbn [users boards change_log with_users].
  split; [reflexivity|].
  split; [apply insert_or_ignore_In|].
  split; [intros n; apply insert_or_ignore_keeps|].
  split.
  { intros n. unfold insert_or_ignore. destruct (decide _); [auto|].
    intros Hin. apply in_app_or in Hin as [Hin|[<-|[]]]; auto. }
  split; [reflexivity|].
  split; [apply order_by_name_perm|].
  split; [apply order_by_name_sorted|].
  split; [reflexivity|].
  split; [reflexivity|].
  split; [exact Hsame|].
  split.
  { intros (_ & _ & Hu) Hin. apply Hsame.
    rewrite Forall_forall in Hu.
    destruct (Hu name (proj2 (list_elem_of_In _ _) Hin)) as [_ ->]. exact Hin. }
  rewrite (add_user_nonempty _ _ Hne). cbn [users with_users].
  rewrite (insert_or_ignore_present (strip name)
             (insert_or_ignore (strip name) (users st)))
    by apply insert_or_ignore_In.
  reflexivity.
Qed.

Lemma add_user_spec_witness :
  add_user (ascii_name " Bob ") init_db
  = (Ok [ascii_name "Bob"], with_users init_db [ascii_name "Bob"])
  /\ add_user (ascii_name "  ") init_db = (Raise EmptyName, init_db).
Proof.
  split.
  - destruct (proj2 (add_user_spec (ascii_name " Bob ") init_db)
                ltac:(vm_compute; discriminate))
      as (roster & st' & Hadd & _).
    rewrite Hadd. vm_compute in Hadd. injection Hadd as <- <-. reflexivity.
  - apply (proj1 (add_user_spec (ascii_name "  ") init_db)). reflexivity.
Defined.

(** * Further properties of the endpoints *)

(** ** Restore *)

Lemma restore_effect (now board_id : string) (st : Store) (r : BoardRow)
    (b : PCBBoard) :
  select_board board_id (boards st) = Some r ->
  board_of_row r = Some b ->
  let st' :=
    with_boards st (update_where board_id (set_deleted 0 None now) (boards st)) in
  restore_board now board_id st = (Ok (with_deleted (Some false) None b), st')
  /\ select_board board_id (boards st') = Some (set_deleted 0 None now r).
Proof.
  intros Hsel Hb st'.
  assert (Hsel' : select_board board_id (boards st')
                  = Some (set_deleted 0 None now r)).
  { unfold st'. cbn [boards with_boards].
    rewrite select_update_where_eq by (intros; apply set_deleted_id).
    rewrite Hsel. reflexivity. }
  split; [|exact Hsel'].
  unfold restore_board. rewrite Hsel. fold st'.
  unfold reread. rewrite Hsel', (board_of_set_deleted _ _ _ _ _ Hb). reflexivity.
Qed.

(** X1. On a well-formed store Restore of a missing id is refused with 404
    and changes nothing.  For a stored id it answers with the stored board,
    [isDeleted] false and [deletedAt] null, whatever they were; the row
    keeps its other columns, with [updated_at] the clock's text; Get
    returns the same board, and other boards, the change log and the users
    are untouched. *)
Theorem restore_board_spec (now board_id : string) (st : Store) :
  wf_store st ->
  (select_board board_id (boards st) = None ->
   restore_board now board_id st = (Raise NotFound, st))
  /\ (forall r, select_board board_id (boards st) = Some r ->
      exists b st',
        board_of_row r = Some b
        /\ restore_board now board_id st
           = (Ok (with_deleted (Some false) None b), st')
        /\ get_board board_id st' = (Ok (with_deleted (Some false) None b), st')
        /\ select_board board_id (boards st') = Some (set_deleted 0 None now r)
        /\ (forall other, other <> board_id ->
            select_board other (boards st') = select_board other (boards st))
        /\ change_log st' = change_log st
        /\ users st' = users st).
Proof.
  intros Hwf. split.
  - intros Hnone. unfold restore_board. rewrite Hnone. reflexivity.
  - intros r Hsel.
    destruct (wf_selected _ _ _ Hwf Hsel) as [_ [b Hb]].
    destruct (restore_effect now board_id st r b Hsel Hb) as [Hres Hsel'].
    exists b. eexists. split; [exact Hb|].
    split; [exact Hres|].
    split.
    { unfold get_board. rewrite Hsel', (board_of_set_deleted _ _ _ _ _ Hb).
      reflexivity. }
    split; [exact Hsel'|].
    split.
    { intros other Hne. cbn [boards with_boards].
      apply select_update_where_ne; [intros; apply set_deleted_id | exact Hne]. }
    split; reflexivity.
Qed.

Lemma restore_board_spec_witness :
  exists b st',
    restore_board "2024-05-10T09:00:00+00:00" alpha_id two_boards = (Ok b, st')
    /\ isDeleted b = Some false
    /\ deletedAt b = None
    /\ restore_board "2024-05-10T09:00:00+00:00" "no-such-id" two_boards
       = (Raise NotFound, two_boards).
Proof.
  destruct (proj2 (restore_board_spec "2024-05-10T09:00:00+00:00" alpha_id
                     two_boards wf_two_boards) _ ltac:(vm_compute; reflexivity))
    as (b & st' & _ & Hres & _).
  eexists _, st'. split; [exact Hres|].
  split; [reflexivity|]. split; [reflexivity|].
  apply (proj1 (restore_board_spec _ "no-such-id" two_boards wf_two_boards)).
  reflexivity.
Defined.

Lemma with_deleted_live (b : PCBBoard) :
  live b -> with_deleted (Some false) None b = b.
Proof.
  destruct b as [i bn pn rv pj ad ia pf nr sts ca d da].
  intros [Hd Ha]. simpl in *. subst. reflexivity.
Qed.

(** X2. SoftDelete followed by Restore gives the board back: on a
    well-formed store, for a stored id, both calls succeed, the second
    answers the stored board with [isDeleted] false and [deletedAt] null,
    and the row has every column it had before the two calls except
    [is_deleted], [deleted_at], now 0 and null, and [updated_at].  For a
    board that was live, the answer and a following Get are exactly the
    board as it was. *)
Theorem soft_delete_then_restore (t1 t2 board_id : string) (st : Store)
    (r : BoardRow) :
  wf_store st ->
  select_board board_id (boards st) = Some r ->
  exists b st1 st2,
    board_of_row r = Some b
    /\ soft_delete_board t1 board_id st
       = (Ok (with_deleted (Some true) (Some t1) b), st1)
    /\ restore_board t2 board_id st1
       = (Ok (with_deleted (Some false) None b), st2)
    /\ select_board board_id (boards st2) = Some (set_deleted 0 None t2 r)
    /\ (live b ->
        restore_board t2 board_id st1 = (Ok b, st2)
        /\ get_board board_id st2 = (Ok b, st2)).
Proof.
  intros Hwf Hsel.
  destruct (wf_selected _ _ _ Hwf Hsel) as [_ [b Hb]].
  destruct (soft_delete_effect t1 board_id st r b Hsel Hb) as [Hdel Hsel1].
  destruct (restore_effect t2 board_id _ _ _ Hsel1
              (board_of_set_deleted _ _ _ _ _ Hb)) as [Hres Hsel2].
  change (with_deleted (Some false) None
            (with_deleted (Some (py_bool 1)) (Some t1) b))
    with (with_deleted (Some false) None b) in Hres.
  change (set_deleted 0 None t2 (set_deleted 1 (Some t1) t1 r))
    with (set_deleted 0 None t2 r) in Hsel2.
  eexists b, _, _. split; [exact Hb|].
  split; [exact Hdel|].
  split; [exact Hres|].
  split; [exact Hsel2|].
  intros Hlive. rewrite Hres.
  unfold get_board. rewrite Hsel2.
  rewrite (board_of_set_deleted _ _ _ _ _ Hb).
  change (py_bool 0) with false.
  rewrite (with_deleted_live _ Hlive). split; reflexivity.
Qed.

Lemma soft_delete_then_restore_witness :
  exists st1 st2,
    fst (soft_delete_board "2024-05-03T09:00:00+00:00" alpha_id one_board)
    = Ok (with_deleted (Some true) (Some "2024-05-03T09:00:00+00:00") alpha_board)
    /\ snd (soft_delete_board "2024-05-03T09:00:00+00:00" alpha_id one_board) = st1
    /\ restore_board "2024-05-04T09:00:00+00:00" alpha_id st1 = (Ok alpha_board, st2)
    /\ get_board alpha_id st2 = (Ok alpha_board, st2).
Proof.
  destruct (soft_delete_then_restore "2024-05-03T09:00:00+00:00"
              "2024-05-04T09:00:00+00:00" alpha_id one_board _ wf_one_board
              ltac:(vm_compute; reflexivity))
    as (b & st1 & st2 & Hb & Hdel & _ & _ & Hlive).
  vm_compute in Hb. injection Hb as <-.
  destruct (Hlive (conj eq_refl eq_refl)) as [Hres Hget].
  exists st1, st2. rewrite Hdel. repeat split; assumption.
Defined.

(** ** Primary keys *)

Lemma map_key_update_where (board_id : string) (set : BoardRow -> BoardRow)
    (rows : list BoardRow) :
  (forall r, r_id (set r) = r_id r) ->
  map r_id (update_where board_id set rows) = map r_id rows.
Proof.
  intros Hid. unfold update_where. induction rows as [|r rows IH]; simpl.
  - reflexivity.
  - rewrite IH. destruct (has_id board_id r); [rewrite Hid|]; reflexivity.
Qed.

Lemma NoDup_map_filter {A B : Type} (f : A -> B) (P : A -> Prop)
    `{forall x, Decision (P x)} (l : list A) :
  NoDup (map f l) -> NoDup (map f (filter P l)).
Proof.
  induction l as [|x l IH]; simpl; [intros _; constructor|].
  intros Hnd. apply NoDup_cons in Hnd as [Hx Hnd].
  rewrite filter_cons. destruct (decide (P x)); simpl; [|apply IH, Hnd].
  apply NoDup_cons. split; [|apply IH, Hnd].
  intros Hin. apply Hx. apply list_elem_of_In in Hin. apply list_elem_of_In.
  apply in_map_iff in Hin as (y & Hy & Hin). apply in_map_iff.
  exists y. split; [exact Hy|].
  apply list_elem_of_In in Hin. apply list_elem_of_filter in Hin as [_ Hin].
  apply list_elem_of_In, Hin.
Qed.

Lemma NoDup_map_snoc {A B : Type} (f : A -> B) (l : list A) (x : A) :
  NoDup (map f l) -> Forall (fun y => f y <> f x) l -> NoDup (map f (l ++ [x])).
Proof.
  intros Hnd Hx. rewrite map_app. apply NoDup_app.
  split; [exact Hnd|]. split; [|apply NoDup_singleton].
  intros k Hk Hk'. apply list_elem_of_In in Hk.
  apply in_map_iff in Hk as (y & <- & Hy).
  apply list_elem_of_singleton in Hk'.
  rewrite Forall_forall in Hx. apply (Hx y); [apply list_elem_of_In, Hy | exact Hk'].
Qed.

Lemma fresh_entry_id_inv (entry_id : string) (log : list ChangeRow) :
  existsb (fun c => String.eqb (c_id c) entry_id) log = false ->
  Forall (fun c => c_id c <> entry_id) log.
Proof.
  induction log as [|c log IH]; simpl; [constructor|].
  intros H. apply orb_false_iff in H as [Hc H].
  constructor; [apply String.eqb_neq, Hc | apply IH, H].
Qed.

Lemma unique_keys_init : unique_keys init_db.
Proof. repeat split; constructor. Qed.

Lemma unique_keys_step (st st' : Store) :
  unique_keys st -> step st st' -> unique_keys st'.
Proof.
  intros (Hb & Hc & Hu) Hstep. destruct Hstep.
  - unfold create_board. destruct (existsb _ _) eqn:E; [repeat split; assumption|].
    repeat split; try assumption. cbn [snd boards with_boards].
    apply NoDup_map_snoc; [exact Hb|].
    apply select_board_existsb, select_board_None in E. exact E.
  - unfold update_board. destruct (negb _); [repeat split; assumption|].
    destruct (select_board _ _); repeat split; try assumption.
    cbn [snd boards with_boards].
    rewrite map_key_update_where by apply set_from_board_id. exact Hb.
  - unfold soft_delete_board.
    destruct (select_board _ _); [rewrite snd_reread|]; repeat split; try assumption.
    cbn [boards with_boards].
    rewrite map_key_update_where by (intros; apply set_deleted_id). exact Hb.
  - unfold restore_board.
    destruct (select_board _ _); [rewrite snd_reread|]; repeat split; try assumption.
    cbn [boards with_boards].
    rewrite map_key_update_where by (intros; apply set_deleted_id). exact Hb.
  - unfold permanent_delete_board.
    destruct (select_board _ _); repeat split; try assumption;
      apply NoDup_map_filter; assumption.
  - unfold add_changelog. destruct (existsb _ _) eqn:E; [repeat split; assumption|].
    repeat split; try assumption. cbn [snd change_log].
    apply NoDup_map_snoc; [exact Hc|].
    apply fresh_entry_id_inv, E.
  - unfold add_user. destruct (strip name) as [|c s]; [repeat split; assumption|].
    repeat split; try assumption. cbn [snd users with_users].
    unfold insert_or_ignore. destruct (decide _) as [|Hn]; [exact Hu|].
    apply NoDup_app. split; [exact Hu|]. split; [|apply NoDup_singleton].
    intros n Hin Hin'. apply list_elem_of_singleton in Hin'. subst. contradiction.
  - unfold remove_user. repeat split; try assumption.
    cbn [snd users with_users]. apply NoDup_filter, Hu.
Qed.

Lemma reachable_one_board : reachable one_board.
Proof. eapply reachable_step; [apply reachable_init | apply step_create]. Qed.

Lemma reachable_two_boards : reachable two_boards.
Proof.
  eapply reachable_step; [|apply step_soft_delete].
  eapply reachable_step; [apply reachable_one_board | apply step_create].
Qed.

Lemma reachable_logged : reachable logged.
Proof.
  eapply reachable_step; [|apply step_add_changelog].
  eapply reachable_step; [apply reachable_two_boards | apply step_add_changelog].
Qed.

Lemma unique_keys_reachable (st : Store) : reachable st -> unique_keys st.
Proof.
  induction 1 as [|st st' _ IH Hstep]; [apply unique_keys_init|].
  apply (unique_keys_step st st' IH Hstep).
Qed.

Lemma select_board_unique (rows : list BoardRow) (r : BoardRow) :
  NoDup (map r_id rows) -> In r rows -> select_board (r_id r) rows = Some r.
Proof.
  unfold select_board. induction rows as [|x rows IH]; simpl; [contradiction|].
  intros Hnd Hin. apply NoDup_cons in Hnd as [Hx Hnd].
  destruct Hin as [->|Hin].
  - rewrite (proj2 (has_id_true _ _) eq_refl). reflexivity.
  - destruct (has_id (r_id r) x) eqn:E; [|apply IH; assumption].
    apply has_id_true in E. exfalso. apply Hx.
    rewrite E. apply list_elem_of_In, in_map, Hin.
Qed.

(** X3. In every store the endpoints can produce from the empty database,
    no two board rows share an id, no two change-log rows share an id and
    no user name is stored twice; a stored board row is therefore the one
    its id selects. *)
Theorem primary_keys_unique (st : Store) :
  reachable st ->
  unique_keys st
  /\ forall r, In r (boards st) -> select_board (r_id r) (boards st) = Some r.
Proof.
  intros Hr. pose proof (unique_keys_reachable st Hr) as Hu.
  split; [exact Hu|].
  intros r Hin. apply select_board_unique; [apply Hu | exact Hin].
Qed.

Lemma primary_keys_unique_witness :
  NoDup (map r_id (boards logged)) /\ NoDup (map c_id (change_log logged)).
Proof.
  destruct (primary_keys_unique logged reachable_logged) as [(Hb & Hc & _) _].
  split; assumption.
Defined.

(** ** Get *)

Lemma to_result_Ok {A : Type} (o : option A) (a : A) :
  to_result o = Ok a <-> o = Some a.
Proof.
  destruct o as [x|]; simpl; split; intros H; try discriminate; congruence.
Qed.

(** X4. On a well-formed store with unique keys Get leaves the store as it
    is, answers 404 exactly for the ids no row has, and returns exactly
    the boards of the listing that includes deleted ones, each under its
    own id. *)
Theorem get_board_spec (st : Store) :
  wf_store st ->
  unique_keys st ->
  (forall board_id, snd (get_board board_id st) = st)
  /\ (forall board_id,
        select_board board_id (boards st) = None
        <-> get_board board_id st = (Raise NotFound, st))
  /\ (forall all, list_boards true st = (Ok all, st) ->
      forall b, In b all <-> get_board (id b) st = (Ok b, st)).
Proof.
  intros Hwf Huniq. split; [|split].
  - intros board_id. unfold get_board.
    destruct (select_board _ _); reflexivity.
  - intros board_id. unfold get_board. split.
    + intros ->. reflexivity.
    + destruct (select_board board_id (boards st)) as [r|] eqn:E; [|reflexivity].
      destruct (wf_selected _ _ _ Hwf E) as [_ [b Hb]].
      rewrite Hb. discriminate.
  - intros all Hall b.
    destruct (list_boards_all_wf st Hwf) as (all' & Hall' & Pall).
    rewrite Hall' in Hall. injection Hall as ->.
    split.
    + intros Hin. apply list_elem_of_In in Hin. rewrite Pall in Hin.
      apply list_elem_of_omap in Hin as (r & Hr & Hb).
      destruct (board_of_row_fields _ _ Hb) as (Hid & _).
      unfold get_board. rewrite Hid.
      rewrite (select_board_unique _ _ (proj1 Huniq)
                 (proj1 (list_elem_of_In _ _) Hr)).
      rewrite Hb. reflexivity.
    + unfold get_board.
      destruct (select_board (id b) (boards st)) as [r|] eqn:E; [|discriminate].
      intros [= Hb]. apply to_result_Ok in Hb.
      apply list_elem_of_In. rewrite Pall. apply list_elem_of_omap.
      exists r. split; [|exact Hb].
      apply list_elem_of_In, (select_board_Some _ _ _ E).
Qed.

Lemma unique_two_boards : unique_keys two_boards.
Proof. apply unique_keys_reachable, reachable_two_boards. Qed.

Lemma get_board_spec_witness :
  get_board "no-such-id" two_boards = (Raise NotFound, two_boards)
  /\ exists b, get_board beta_id two_boards = (Ok b, two_boards)
               /\ boardName b = "Beta".
Proof.
  destruct (get_board_spec two_boards wf_two_boards unique_two_boards)
    as (_ & Hnf & _).
  split; [apply Hnf; reflexivity|].
  eexists. split; [vm_compute; reflexivity | reflexivity].
Defined.

(** ** What no call changes *)

Lemma select_board_app_old (board_id : string) (rows extra : list BoardRow)
    (r : BoardRow) :
  select_board board_id rows = Some r ->
  select_board board_id (rows ++ extra) = Some r.
Proof.
  unfold select_board. induction rows as [|x rows IH]; simpl; [discriminate|].
  destruct (has_id board_id x); [auto | exact IH].
Qed.

Lemma select_after_set (board_id i : string) (set : BoardRow -> BoardRow)
    (rows : list BoardRow) (r : BoardRow) :
  (forall x, r_id (set x) = r_id x) ->
  (forall x, r_created_at (set x) = r_created_at x) ->
  select_board i rows = Some r ->
  exists r', select_board i (update_where board_id set rows) = Some r'
             /\ r_id r' = r_id r /\ r_created_at r' = r_created_at r.
Proof.
  intros Hid Hca Hsel.
  destruct (String.eqb_spec i board_id) as [->|Hne].
  - rewrite (select_update_where_eq _ _ Hid), Hsel. simpl.
    exists (set r). auto.
  - rewrite (select_update_where_ne _ _ Hid _ _ Hne), Hsel.
    exists r. auto.
Qed.

(** X5. No call changes the id or the creation time of a stored board:
    after any one call of a writing endpoint, the row an id selected is
    still selected by it, with the same [id] and [created_at], unless the
    call was the permanent delete of that id. *)
Theorem id_and_created_at_fixed (st st' : Store) (i : string) (r : BoardRow) :
  step st st' ->
  select_board i (boards st) = Some r ->
  (exists r', select_board i (boards st') = Some r'
              /\ r_id r' = r_id r /\ r_created_at r' = r_created_at r)
  \/ st' = snd (permanent_delete_board i st).
Proof.
  intros Hstep Hsel.
  assert (Hsame : exists r', select_board i (boards st) = Some r'
                             /\ r_id r' = r_id r /\ r_created_at r' = r_created_at r)
    by (exists r; auto).
  destruct Hstep.
  - left. unfold create_board. destruct (existsb _ _); [exact Hsame|].
    exists r. cbn [snd boards with_boards].
    rewrite (select_board_app_old _ _ _ _ Hsel). auto.
  - left. unfold update_board. destruct (negb _); [exact Hsame|].
    destruct (select_board board_id (boards st)); [|exact Hsame].
    cbn [snd boards with_boards].
    apply select_after_set; [reflexivity | reflexivity | exact Hsel].
  - left. unfold soft_delete_board.
    destruct (select_board board_id (boards st)); [|exact Hsame].
    rewrite snd_reread. cbn [boards with_boards].
    apply select_after_set; [reflexivity | reflexivity | exact Hsel].
  - left. unfold restore_board.
    destruct (select_board board_id (boards st)); [|exact Hsame].
    rewrite snd_reread. cbn [boards with_boards].
    apply select_after_set; [reflexivity | reflexivity | exact Hsel].
  - destruct (String.eqb_spec i board_id) as [->|Hne]; [right; reflexivity|].
    left. unfold permanent_delete_board.
    destruct (select_board board_id (boards st)); [|exact Hsame].
    cbn [snd boards]. rewrite (select_board_filter_ne _ _ _ Hne). exact Hsame.
  - left. unfold add_changelog. destruct (existsb _ _); exact Hsame.
  - left. unfold add_user. destruct (strip name); exact Hsame.
  - left. exact Hsame.
Qed.

Lemma id_and_created_at_fixed_witness :
  exists r',
    select_board alpha_id
      (boards (snd (update_board "2024-06-01T08:30:00+00:00" alpha_id
                      (pinned alpha_id "1999-01-01T00:00:00+00:00" alpha_board)
                      one_board)))
    = Some r'
    /\ r_created_at r' = "2024-05-01T10:00:00+00:00".
Proof.
  destruct (id_and_created_at_fixed one_board _ alpha_id _
              (step_update one_board "2024-06-01T08:30:00+00:00" alpha_id
                 (pinned alpha_id "1999-01-01T00:00:00+00:00" alpha_board))
              ltac:(vm_compute; reflexivity))
    as [(r' & Hsel & _ & Hca)|Hdel].
  - exists r'. split; [exact Hsel | exact Hca].
  - vm_compute in Hdel. discriminate.
Defined.

(** ** Successive updates *)

Lemma update_where_twice (board_id : string) (s1 s2 : BoardRow -> BoardRow)
    (rows : list BoardRow) :
  (forall r, r_id (s1 r) = r_id r) ->
  (forall r, s2 (s1 r) = s2 r) ->
  update_where board_id s2 (update_where board_id s1 rows)
  = update_where board_id s2 rows.
Proof.
  intros Hid H21. unfold update_where. rewrite map_map.
  apply map_ext. intros r. destruct (has_id board_id r) eqn:E.
  - unfold has_id. rewrite Hid. fold (has_id board_id r). rewrite E. apply H21.
  - rewrite E. reflexivity.
Qed.

(** X6. The last Update wins: an Update whose payload carries the
    addressed id gives the same answer and leaves the same store whether
    or not another Update of that id, with any payload and at any clock
    text, came just before it. *)
Theorem update_last_write_wins (t1 t2 board_id : string) (p1 p2 : PCBBoard)
    (st : Store) :
  id p2 = board_id ->
  update_board t2 board_id p2 (snd (update_board t1 board_id p1 st))
  = update_board t2 board_id p2 st.
Proof.
  intros Hid. unfold update_board at 2.
  destruct (negb (String.eqb (id p1) board_id)); [reflexivity|].
  destruct (select_board board_id (boards st)) as [r|] eqn:Hsel; [|reflexivity].
  cbn [snd].
  assert (Hsel1 : select_board board_id
                    (update_where board_id (set_from_board t1 p1) (boards st))
                  = Some (set_from_board t1 p1 r)).
  { rewrite select_update_where_eq by apply set_from_board_id.
    rewrite Hsel. reflexivity. }
  rewrite (update_board_success t2 board_id p2
             (with_boards st (update_where board_id (set_from_board t1 p1) (boards st)))
             _ Hsel1 Hid).
  rewrite (update_board_success t2 board_id p2 st r Hsel Hid).
  cbn [boards with_boards]. unfold with_boards at 1. cbn [change_log users with_boards].
  rewrite update_where_twice; [reflexivity | apply set_from_board_id | reflexivity].
Qed.

Lemma update_last_write_wins_witness :
  update_board "2024-06-02T00:00:00+00:00" alpha_id
    (with_deleted (Some true) None alpha_board)
    (snd (update_board "2024-06-01T00:00:00+00:00" alpha_id
            (pinned alpha_id "1999-01-01T00:00:00+00:00" alpha_board) one_board))
  = update_board "2024-06-02T00:00:00+00:00" alpha_id
      (with_deleted (Some true) None alpha_board) one_board.
Proof. apply update_last_write_wins. reflexivity. Defined.

(** ** Which boards the default listing shows *)

Lemma list_boards_live_wf (st : Store) :
  wf_store st ->
  exists l,
    list_boards false st = (Ok l, st)
    /\ l ≡ₚ omap board_of_row
              (filter (fun r => r_is_deleted r = 0%Z) (boards st)).
Proof.
  intros (Hb & _ & _).
  destruct (select_all_ordered
              (filter (fun r => r_is_deleted r = 0%Z) (boards st))
              (Forall_filter_keep _ _ _ Hb))
    as (l & Hl & Pl & _).
  exists l. split; [|exact Pl].
  unfold list_boards. rewrite Hl. reflexivity.
Qed.

Lemma hidden_after_set (board_id : string) (set : BoardRow -> BoardRow)
    (rows : list BoardRow) (b : PCBBoard) :
  (forall r, r_is_deleted (set r) <> 0%Z) ->
  b ∈ omap board_of_row
        (filter (fun r => r_is_deleted r = 0%Z) (update_where board_id set rows)) ->
  id b <> board_id.
Proof.
  intros Hset Hb. apply list_elem_of_omap in Hb as (r' & Hr' & Hb).
  apply list_elem_of_filter in Hr' as [Hlive Hr'].
  apply list_elem_of_In, in_map_iff in Hr' as (r & Hr & _).
  destruct (board_of_row_fields _ _ Hb) as (-> & _).
  destruct (has_id board_id r) eqn:E; subst r'.
  - exfalso. apply (Hset r), Hlive.
  - apply has_id_false, E.
Qed.

Lemma shown_after_set (board_id : string) (set : BoardRow -> BoardRow)
    (rows : list BoardRow) (r : BoardRow) (b : PCBBoard) :
  select_board board_id rows = Some r ->
  r_is_deleted (set r) = 0%Z ->
  board_of_row (set r) = Some b ->
  b ∈ omap board_of_row
        (filter (fun r => r_is_deleted r = 0%Z) (update_where board_id set rows)).
Proof.
  intros Hsel Hlive Hb. apply list_elem_of_omap. exists (set r).
  split; [|exact Hb]. apply list_elem_of_filter. split; [exact Hlive|].
  apply select_board_Some in Hsel as [Hid Hin].
  apply list_elem_of_In, in_map_iff. exists r. split; [|exact Hin].
  rewrite (proj2 (has_id_true _ _) Hid). reflexivity.
Qed.

(** X7. On a well-formed store, for a stored id: after SoftDelete, or
    after an Update whose payload has [isDeleted] true, the listing
    without deleted boards holds no board of that id; after Restore, or
    after an Update whose payload has [isDeleted] false or null, it holds
    one. *)
Theorem default_listing_visibility (now board_id : string) (st : Store)
    (r : BoardRow) :
  wf_store st ->
  select_board board_id (boards st) = Some r ->
  (exists l,
     list_boards false (snd (soft_delete_board now board_id st))
     = (Ok l, snd (soft_delete_board now board_id st))
     /\ Forall (fun b => id b <> board_id) l)
  /\ (exists l b,
        list_boards false (snd (restore_board now board_id st))
        = (Ok l, snd (restore_board now board_id st))
        /\ In b l /\ id b = board_id)
  /\ (forall payload, id payload = board_id ->
      exists l,
        list_boards false (snd (update_board now board_id payload st))
        = (Ok l, snd (update_board now board_id payload st))
        /\ (isDeleted payload = Some true -> Forall (fun b => id b <> board_id) l)
        /\ (isDeleted payload <> Some true ->
            exists b, In b l /\ id b = board_id)).
Proof.
  intros Hwf Hsel.
  destruct (wf_selected _ _ _ Hwf Hsel) as [_ [b Hb]].
  pose proof (select_board_Some _ _ _ Hsel) as [Hrid _].
  split; [|split].
  - destruct (list_boards_live_wf _ (wf_soft_delete now board_id st Hwf))
      as (l & Hl & Pl).
    exists l. split; [exact Hl|].
    apply Forall_forall. intros x Hx. rewrite Pl in Hx.
    rewrite (proj1 (soft_delete_effect now board_id st r b Hsel Hb)) in Hx.
    cbn [snd boards with_boards] in Hx.
    apply (hidden_after_set _ (set_deleted 1 (Some now) now) (boards st));
      [|exact Hx].
    intros r0. discriminate.
  - destruct (list_boards_live_wf _ (wf_restore now board_id st Hwf))
      as (l & Hl & Pl).
    exists l, (with_deleted (Some false) None b). split; [exact Hl|].
    split; [|simpl; rewrite (proj1 (board_of_row_fields _ _ Hb)); exact Hrid].
    apply list_elem_of_In. rewrite Pl.
    rewrite (proj1 (restore_effect now board_id st r b Hsel Hb)).
    cbn [snd boards with_boards].
    apply (shown_after_set _ _ _ r); [exact Hsel | reflexivity|].
    exact (board_of_set_deleted 0 None now _ _ Hb).
  - intros payload Hid.
    destruct (list_boards_live_wf _ (wf_update now board_id payload st Hwf))
      as (l & Hl & Pl).
    exists l. split; [exact Hl|].
    rewrite (update_board_success now board_id payload st r Hsel Hid) in Pl.
    cbn [snd boards with_boards] in Pl.
    split.
    + intros Hdel. apply Forall_forall. intros x Hx. rewrite Pl in Hx.
      apply (hidden_after_set _ (set_from_board now payload) (boards st));
        [|exact Hx].
      intros r0. cbn [r_is_deleted set_from_board]. rewrite Hdel. discriminate.
    + intros Hlive. eexists. split.
      * apply list_elem_of_In. rewrite Pl.
        apply (shown_after_set _ _ _ r); [exact Hsel | | apply board_of_updated_row].
        cbn [r_is_deleted set_from_board].
        destruct (isDeleted payload) as [[|]|]; [contradiction | reflexivity..].
      * simpl. exact Hrid.
Qed.

Lemma default_listing_visibility_witness :
  (exists l,
     fst (list_boards false
            (snd (soft_delete_board "2024-05-03T09:00:00+00:00" alpha_id one_board)))
     = Ok l /\ l = [])
  /\ exists l,
       fst (list_boards false
              (snd (restore_board "2024-05-10T09:00:00+00:00" alpha_id two_boards)))
       = Ok l /\ map id l = [beta_id; alpha_id].
Proof.
  destruct (default_listing_visibility "2024-05-03T09:00:00+00:00" alpha_id
              one_board _ wf_one_board ltac:(vm_compute; reflexivity))
    as ((l & Hl & _) & _).
  split.
  - exists l. split; [rewrite Hl; reflexivity|].
    vm_compute in Hl. injection Hl as <-. reflexivity.
  - eexists. split; vm_compute; reflexivity.
Defined.

(** ** Users: remove, and how it composes with add *)

Lemma filter_all {A : Type} (P : A -> Prop) `{forall x, Decision (P x)} (l : list A) :
  Forall P l -> filter P l = l.
Proof.
  induction 1 as [|x l Hx _ IH]; [reflexivity|].
  rewrite filter_cons. destruct (decide (P x)); [|contradiction].
  rewrite IH. reflexivity.
Qed.

Lemma filter_other_names (name : Name) (names : list Name) :
  ~ In name names -> filter (fun n => n <> name) names = names.
Proof.
  intros Hn. apply filter_all, Forall_forall.
  intros n Hin ->. apply Hn, list_elem_of_In, Hin.
Qed.

Lemma In_filter_other (name n : Name) (names : list Name) :
  In n (filter (fun x => x <> name) names) <-> In n names /\ n <> name.
Proof.
  rewrite <- !list_elem_of_In, list_elem_of_filter. tauto.
Qed.

(** X8. Remove never fails.  It deletes the name as given, without
    stripping it, keeps every other name and touches nothing else; it
    answers with the remaining roster in ascending text order.  Removing a
    name that is not stored changes nothing, and removing the same name
    again gives the same answer and the same store. *)
Theorem remove_user_spec (name : Name) (st : Store) :
  exists roster st',
    remove_user name st = (Ok roster, st')
    /\ ~ In name (users st')
    /\ (forall n, In n (users st') <-> In n (users st) /\ n <> name)
    /\ roster ≡ₚ users st'
    /\ StronglySorted lex_le roster
    /\ boards st' = boards st
    /\ change_log st' = change_log st
    /\ (~ In name (users st) -> st' = st)
    /\ remove_user name st' = (Ok roster, st').
Proof.
  eexists _, _. split; [reflexivity|].
  cbn [users boards change_log with_users].
  split; [intros Hin; apply In_filter_other in Hin as [_ Hne]; auto|].
  split; [intros n; apply In_filter_other|].
  split; [apply order_by_name_perm|].
  split; [apply order_by_name_sorted|].
  split; [reflexivity|].
  split; [reflexivity|].
  split.
  { intros Hn. rewrite (filter_other_names _ _ Hn). apply with_users_same. }
  unfold remove_user. cbn [users with_users].
  rewrite (filter_other_names name (filter (fun n => n <> name) (users st))).
  - reflexivity.
  - intros Hin. apply In_filter_other in Hin as [_ Hne]. auto.
Qed.

(** X9. Remove undoes Add only under the stored name.  When the stripped
    name is not empty and not yet stored, Add followed by Remove of the
    stripped name leaves the store as it was before both; Remove of a name
    that differs from its stripped form leaves the stored name in
    place. *)
Theorem add_then_remove (name : Name) (st : Store) :
  strip name <> [] ->
  ~ In (strip name) (users st) ->
  snd (remove_user (strip name) (snd (add_user name st))) = st
  /\ (name <> strip name ->
      In (strip name) (users (snd (remove_user name (snd (add_user name st)))))).
Proof.
  intros Hne Hnew. rewrite (add_user_nonempty _ _ Hne). cbn [snd].
  assert (Hins : insert_or_ignore (strip name) (users st)
                 = users st ++ [strip name]).
  { unfold insert_or_ignore. destruct (decide _) as [Hin|_]; [|reflexivity].
    exfalso. apply Hnew, list_elem_of_In, Hin. }
  rewrite Hins. unfold remove_user. cbn [snd users with_users]. split.
  - rewrite filter_app, (filter_other_names _ _ Hnew).
    rewrite filter_cons. destruct (decide (strip name <> strip name)) as [E|_];
      [contradiction|].
    rewrite filter_nil, app_nil_r. destruct st; reflexivity.
  - intros Hdiff. apply In_filter_other. split; [|congruence].
    apply in_or_app. right. left. reflexivity.
Qed.

Lemma add_then_remove_witness :
  snd (remove_user (ascii_name "Bob") (snd (add_user (ascii_name " Bob ") init_db)))
  = init_db
  /\ In (ascii_name "Bob")
       (users (snd (remove_user (ascii_name " Bob ")
                      (snd (add_user (ascii_name " Bob ") init_db))))).
Proof.
  destruct (add_then_remove (ascii_name " Bob ") init_db
              ltac:(vm_compute; discriminate) ltac:(simpl; tauto))
    as [Hback Hstay].
  split; [exact Hback|].
  apply Hstay. vm_compute. discriminate.
Defined.

(** ** Users: which names are refused, and what is stored *)

Lemma lstrip_nil (s : Name) : lstrip s = [] <-> all_space s = true.
Proof.
  unfold all_space. induction s as [|c s IH]; simpl; [tauto|].
  destruct (isspace c); simpl; [exact IH|]. split; discriminate.
Qed.

Lemma all_space_rev (s : Name) : all_space (rev s) = true -> all_space s = true.
Proof.
  unfold all_space. rewrite !forallb_forall.
  intros H c Hc. apply H, in_rev. rewrite rev_involutive. exact Hc.
Qed.

Lemma strip_nil (s : Name) : strip s = [] <-> all_space s = true.
Proof.
  split.
  - unfold strip, rstrip. intros H.
    apply (f_equal (@rev N)) in H. rewrite rev_involutive in H. simpl in H.
    apply lstrip_nil, all_space_rev in H.
    pose proof (lstrip_lstripped s) as Hl.
    destruct (lstrip s) as [|c t] eqn:E; [apply lstrip_nil, E|].
    simpl in Hl, H. unfold all_space in H. simpl in H. rewrite Hl in H. discriminate.
  - intros H. apply lstrip_nil in H. unfold strip. rewrite H. reflexivity.
Qed.

(** X10. Add refuses exactly the names made of white space only, the empty
    name included: the answer is the 400 error, with the store unchanged,
    if and only if every code point of the name is white space. *)
Theorem add_user_refuses_blank (name : Name) (st : Store) :
  all_space name = true <-> add_user name st = (Raise EmptyName, st).
Proof.
  rewrite <- strip_nil. unfold add_user. split.
  - intros ->. reflexivity.
  - destruct (strip name); [reflexivity | discriminate].
Qed.

Lemma wf_name_trimmed (n : Name) : wf_name n -> trimmed n.
Proof.
  intros [Hne Hs]. split; [exact Hne|]. split.
  - rewrite <- Hs. apply rstrip_lstripped, lstrip_lstripped.
  - rewrite <- Hs. unfold strip, rstrip. rewrite rev_involutive.
    apply lstrip_lstripped.
Qed.

(** X11. In every store the endpoints can produce from the empty database,
    every stored user name is not empty and neither starts nor ends with
    white space. *)
Theorem roster_names_trimmed (st : Store) :
  reachable st -> Forall trimmed (users st).
Proof.
  intros Hr. destruct (wf_store_reachable st Hr) as (_ & _ & Hu).
  apply (Forall_impl _ _ _ Hu). exact wf_name_trimmed.
Qed.

Lemma reachable_bob_and_al : reachable bob_and_al.
Proof.
  eapply reachable_step; [|apply step_add_user].
  eapply reachable_step; [apply reachable_init | apply step_add_user].
Qed.

Lemma roster_names_trimmed_witness :
  users bob_and_al = [ascii_name "Bob"; ascii_name "Al"]
  /\ Forall trimmed (users bob_and_al).
Proof.
  split; [reflexivity|].
  apply (roster_names_trimmed bob_and_al reachable_bob_and_al).
Defined.

(** ** Users: the roster *)

#[global] Instance lex_le_antisym : AntiSymm (=) lex_le.
Proof. intros a b. apply lex_leb_antisym. Qed.

(** X12. List returns the stored names, each as often as stored, in
    ascending text order, and leaves the store as it is; the order does
    not depend on the order of insertion, so two stores with the same
    names give the same roster; and it returns what Add and Remove have
    just answered. *)
Theorem list_users_spec (st : Store) :
  exists roster,
    list_users st = (Ok roster, st)
    /\ roster ≡ₚ users st
    /\ StronglySorted lex_le roster
    /\ (forall st2, users st2 ≡ₚ users st -> fst (list_users st2) = Ok roster)
    /\ (forall name, strip name <> [] ->
        fst (list_users (snd (add_user name st))) = fst (add_user name st))
    /\ (forall name,
        fst (list_users (snd (remove_user name st))) = fst (remove_user name st)).
Proof.
  exists (order_by_name (users st)).
  split; [reflexivity|].
  split; [apply order_by_name_perm|].
  split; [apply order_by_name_sorted|].
  split.
  { intros st2 Hp. unfold list_users. cbn [fst]. f_equal.
    apply (StronglySorted_unique lex_le); try apply order_by_name_sorted.
    rewrite !order_by_name_perm. exact Hp. }
  split.
  { intros name Hne. rewrite (add_user_nonempty _ _ Hne). reflexivity. }
  intros name. reflexivity.
Qed.

Lemma remove_user_spec_witness :
  remove_user (ascii_name "Bob") bob_and_al
  = (Ok [ascii_name "Al"], with_users bob_and_al [ascii_name "Al"])
  /\ snd (remove_user (ascii_name "Zed") bob_and_al) = bob_and_al.
Proof.
  destruct (remove_user_spec (ascii_name "Zed") bob_and_al)
    as (roster & st' & Hrem & _ & _ & _ & _ & _ & _ & Hsame & _).
  split; [reflexivity|].
  rewrite Hrem. apply Hsame. vm_compute. intros [H|[H|[]]]; discriminate.
Defined.

Lemma add_user_refuses_blank_witness :
  add_user [9%N; 160%N; 8195%N; 12288%N] bob_and_al = (Raise EmptyName, bob_and_al).
Proof. apply (proj1 (add_user_refuses_blank _ _)). reflexivity. Defined.

Lemma list_users_spec_witness :
  fst (list_users bob_and_al) = Ok [ascii_name "Al"; ascii_name "Bob"]
  /\ fst (list_users (with_users init_db [ascii_name "Al"; ascii_name "Bob"]))
     = Ok [ascii_name "Al"; ascii_name "Bob"].
Proof.
  destruct (list_users_spec bob_and_al) as (roster & Hl & _ & _ & Hperm & _).
  rewrite Hl. cbn [fst]. vm_compute in Hl. injection Hl as <-.
  split; [reflexivity|].
  apply Hperm. apply Permutation_swap.
Defined.

(** ** Change log: the filter *)

Lemma entry_of_row_boardId (c : ChangeRow) (e : ChangeLogEntry) :
  entry_of_row c = Some e -> cl_boardId e = c_board_id c.
Proof.
  unfold entry_of_row, validate_entry.
  destruct (validate_role _); [|discriminate]. intros [= <-]. reflexivity.
Qed.

(** X13. On a well-formed store the change log can always be listed and
    listing leaves the store as it is.  Without a board id, or with the
    empty text as board id, the answer holds the entry of every stored
    row; with a board id that is not empty it holds the entries of exactly
    the rows for that id, so every entry in it carries the id. *)
Theorem get_changelog_filter (st : Store) :
  wf_store st ->
  get_changelog (Some EmptyString) st = get_changelog None st
  /\ (exists l,
        get_changelog None st = (Ok l, st)
        /\ length l = length (change_log st)
        /\ forall e, In e l <->
             exists c, In c (change_log st) /\ entry_of_row c = Some e)
  /\ (forall board_id, board_id <> EmptyString ->
      exists l,
        get_changelog (Some board_id) st = (Ok l, st)
        /\ Forall (fun e => cl_boardId e = board_id) l
        /\ forall e, In e l <->
             exists c, In c (change_log st) /\ c_board_id c = board_id
                       /\ entry_of_row c = Some e).
Proof.
  intros Hwf. split; [reflexivity|]. split.
  - destruct (get_changelog_wf None st Hwf) as (l & Hl & _ & Pl).
    exists l. split; [exact Hl|]. cbn [truthy] in Pl. split.
    + unfold get_changelog in Hl. cbn [truthy] in Hl.
      injection Hl as Hl. apply to_result_Ok, mapM_Some_1, Forall2_length in Hl.
      rewrite <- Hl. apply Permutation_length, order_by_desc_perm.
    + intros e. rewrite <- list_elem_of_In, Pl, list_elem_of_omap.
      split; intros (c & Hc & He); exists c; split; try exact He;
        apply list_elem_of_In, Hc.
  - intros board_id Hne.
    destruct (get_changelog_wf (Some board_id) st Hwf) as (l & Hl & _ & Pl).
    rewrite (truthy_Some _ Hne) in Pl.
    assert (Hmem : forall e, In e l <->
              exists c, In c (change_log st) /\ c_board_id c = board_id
                        /\ entry_of_row c = Some e).
    { intros e. rewrite <- list_elem_of_In, Pl, list_elem_of_omap. split.
      - intros (c & Hc & He). apply list_elem_of_filter in Hc as [Hb Hc].
        exists c. split; [apply list_elem_of_In, Hc|]. split; [congruence | exact He].
      - intros (c & Hc & Hb & He). exists c. split; [|exact He].
        apply list_elem_of_filter. split; [congruence | apply list_elem_of_In, Hc]. }
    exists l. split; [exact Hl|]. split; [|exact Hmem].
    apply Forall_forall. intros e He.
    apply list_elem_of_In, Hmem in He as (c & _ & Hb & He).
    rewrite (entry_of_row_boardId _ _ He). exact Hb.
Qed.

Lemma get_changelog_filter_witness :
  (exists l, fst (get_changelog (Some EmptyString) logged) = Ok l /\ length l = 2)
  /\ exists l, fst (get_changelog (Some beta_id) logged) = Ok l
               /\ map cl_boardId l = [beta_id].
Proof.
  destruct (get_changelog_filter logged wf_logged) as (Hall & (l & Hl & Hlen & _) & _).
  split.
  - exists l. rewrite Hall, Hl. split; [reflexivity | exact Hlen].
  - eexists. split; vm_compute; reflexivity.
Defined.

(** ** Change log: what board calls leave alone *)

(** X14. The change log does not follow the life of a board short of its
    permanent delete: after a Create, an Update, a SoftDelete or a Restore,
    whatever they answer, every listing of the change log answers what it
    answered before. *)
Theorem changelog_survives_board_calls (st : Store) (q : option string) :
  (forall uuid now req,
     fst (get_changelog q (snd (create_board uuid now req st)))
     = fst (get_changelog q st))
  /\ (forall now board_id payload,
        fst (get_changelog q (snd (update_board now board_id payload st)))
        = fst (get_changelog q st))
  /\ (forall now board_id,
        fst (get_changelog q (snd (soft_delete_board now board_id st)))
        = fst (get_changelog q st))
  /\ (forall now board_id,
        fst (get_changelog q (snd (restore_board now board_id st)))
        = fst (get_changelog q st)).
Proof.
  split; [|split; [|split]].
  - intros uuid now req. unfold create_board.
    destruct (existsb _ _); reflexivity.
  - intros now board_id payload. unfold update_board.
    destruct (negb _); [reflexivity|].
    destruct (select_board _ _); reflexivity.
  - intros now board_id. unfold soft_delete_board.
    destruct (select_board _ _); [rewrite snd_reread|]; reflexivity.
  - intros now board_id. unfold restore_board.
    destruct (select_board _ _); [rewrite snd_reread|]; reflexivity.
Qed.

(** ** Stored stage trees *)

Lemma model_dump_inj (s1 s2 : Stage) : model_dump s1 = model_dump s2 -> s1 = s2.
Proof.
  intros H. apply (f_equal validate_stage) in H.
  rewrite !validate_model_dump in H. congruence.
Qed.

(** X15. A stage tree survives storage: the document Update writes for a
    list of stages builds that same list when a row is read, whatever the
    optional fields of its tasks and subcategories; two different lists of
    stages are never written as the same document. *)
Theorem stages_document_round_trip :
  (forall l : list Stage, validate_stages (JArr (map model_dump l)) = Some l)
  /\ (forall now b r,
        option_map stages (board_of_row (set_from_board now b r)) = Some (stages b))
  /\ (forall l1 l2 : list Stage,
        JArr (map model_dump l1) = JArr (map model_dump l2) -> l1 = l2).
Proof.
  split; [exact validate_stages_dump|]. split.
  - intros now b r. rewrite board_of_updated_row. reflexivity.
  - intros l1 l2 H. apply (f_equal validate_stages) in H.
    rewrite !validate_stages_dump in H. congruence.
Qed.

(** ** Keys that are taken *)

(** X16. An INSERT never overwrites: Create with an identifier a board row
    already has, and Append with an identifier a change-log row already
    has, raise the integrity error and leave the store as it was. *)
Theorem insert_of_taken_key (uuid : N) (now : string) (st : Store) :
  (forall req r,
     select_board (uuid_str uuid) (boards st) = Some r ->
     create_board uuid now req st = (Raise IntegrityError, st))
  /\ (forall req c,
        In c (change_log st) -> c_id c = uuid_str uuid ->
        add_changelog uuid now req st = (Raise IntegrityError, st)).
Proof.
  split.
  - intros req r Hsel. unfold create_board.
    destruct (existsb (has_id (uuid_str uuid)) (boards st)) eqn:E; [reflexivity|].
    apply select_board_existsb in E. congruence.
  - intros req c Hin Hid. unfold add_changelog.
    destruct (existsb _ (change_log st)) eqn:E; [reflexivity|].
    apply fresh_entry_id_inv in E. rewrite Forall_forall in E.
    exfalso. apply (E c); [apply list_elem_of_In, Hin | exact Hid].
Qed.

Lemma insert_of_taken_key_witness :
  create_board alpha_uuid "2024-07-01T00:00:00+00:00" beta_request one_board
  = (Raise IntegrityError, one_board).
Proof.
  apply (proj1 (insert_of_taken_key alpha_uuid "2024-07-01T00:00:00+00:00" one_board)
           beta_request _ ltac:(vm_compute; reflexivity)).
Defined.

Lemma stages_document_round_trip_witness :
  map model_dump (map spec_stage STAGE_TEMPLATES) <> map model_dump []
  /\ validate_stages (JArr (map model_dump (map spec_stage STAGE_TEMPLATES)))
     = Some (map spec_stage STAGE_TEMPLATES).
Proof.
  destruct stages_document_round_trip as (Hrt & _ & Hinj).
  split; [|apply Hrt].
  intros H. assert (E : map spec_stage STAGE_TEMPLATES = [])
    by (apply Hinj; rewrite H; reflexivity).
  discriminate E.
Defined.

(** ** Reading what the endpoints wrote *)

(** X17. In every store the endpoints can produce from the empty database
    the reading endpoints always answer: both board listings and every
    listing of the change log succeed, and Get fails only with 404. *)
Theorem reads_never_fail (st : Store) :
  reachable st ->
  (forall includeDeleted, exists l, list_boards includeDeleted st = (Ok l, st))
  /\ (forall q, exists l, get_changelog q st = (Ok l, st))
  /\ (forall board_id,
        get_board board_id st = (Raise NotFound, st)
        \/ exists b, get_board board_id st = (Ok b, st) /\ id b = board_id).
Proof.
  intros Hr. pose proof (wf_store_reachable st Hr) as Hwf.
  split; [|split].
  - intros [|].
    + destruct (list_boards_all_wf st Hwf) as (l & Hl & _). eauto.
    + destruct (list_boards_live_wf st Hwf) as (l & Hl & _). eauto.
  - intros q. destruct (get_changelog_wf q st Hwf) as (l & Hl & _). eauto.
  - intros board_id. unfold get_board.
    destruct (select_board board_id (boards st)) as [r|] eqn:E; [|left; reflexivity].
    destruct (wf_selected _ _ _ Hwf E) as [_ [b Hb]].
    right. exists b. rewrite Hb. split; [reflexivity|].
    rewrite (proj1 (board_of_row_fields _ _ Hb)).
    apply (select_board_Some _ _ _ E).
Qed.

Lemma reads_never_fail_witness :
  exists l, list_boards true logged = (Ok l, logged) /\ length l = 2.
Proof.
  destruct (reads_never_fail logged reachable_logged) as (Hlist & _).
  destruct (Hlist true) as (l & Hl). exists l. split; [exact Hl|].
  vm_compute in Hl. injection Hl as <-. reflexivity.
Defined.

(** ** Create and the listings *)

Lemma omap_one {A B : Type} (f : A -> option B) (x : A) (y : B) :
  f x = Some y -> omap f [x] = [y].
Proof. intros H. csimpl. rewrite H. reflexivity. Qed.

(** X18. Create adds exactly one board to the listings: on a well-formed
    store, with an identifier no row has, the board it answers is in both
    listings of the new store, and each of them holds that board and the
    boards it held before, nothing else. *)
Theorem create_then_list (uuid : N) (now : string) (req : CreateBoardRequest)
    (st : Store) (includeDeleted : bool) :
  wf_store st ->
  select_board (uuid_str uuid) (boards st) = None ->
  exists b st' before after,
    create_board uuid now req st = (Ok b, st')
    /\ list_boards includeDeleted st = (Ok before, st)
    /\ list_boards includeDeleted st' = (Ok after, st')
    /\ In b after
    /\ after ≡ₚ b :: before.
Proof.
  intros Hwf Hfresh.
  pose proof (wf_create uuid now req st Hwf) as Hwf'.
  unfold create_board in *.
  rewrite (proj2 (select_board_existsb _ _) Hfresh) in *.
  cbn [snd] in Hwf'.
  unfold validate_board.
  cbn -[validate_stages build_default_stages uuid_str STAGE_TEMPLATES] in *.
  rewrite default_stages_valid.
  cbn -[validate_stages build_default_stages uuid_str STAGE_TEMPLATES].
  match goal with
  | H : wf_store (with_boards st (boards st ++ [?r])) |- _ => set (row := r) in *
  end.
  match goal with
  | |- exists b st' before after, (Ok ?x, _) = _ /\ _ => set (b := x)
  end.
  assert (Hrow : board_of_row row = Some b).
  { unfold board_of_row, validate_board, row_to_board_dict, row.
    cbn -[validate_stages build_default_stages uuid_str STAGE_TEMPLATES].
    rewrite default_stages_valid. unfold b.
    destruct (req_isNewRevision req); reflexivity. }
  assert (Hperm : forall before after,
            (if includeDeleted
             then before ≡ₚ omap board_of_row (boards st)
             else before ≡ₚ omap board_of_row
                              (filter (fun r => r_is_deleted r = 0%Z) (boards st))) ->
            (if includeDeleted
             then after ≡ₚ omap board_of_row (boards st ++ [row])
             else after ≡ₚ omap board_of_row
                             (filter (fun r => r_is_deleted r = 0%Z)
                                (boards st ++ [row]))) ->
            after ≡ₚ b :: before).
  { intros before after Hbe Haf. destruct includeDeleted.
    - rewrite Haf, Hbe, omap_app, (omap_one _ _ _ Hrow).
      symmetry. apply Permutation_cons_append.
    - rewrite Haf, Hbe, filter_app, omap_app.
      rewrite filter_cons, filter_nil.
      destruct (decide (r_is_deleted row = 0%Z)) as [_|Hn];
        [|exfalso; apply Hn; reflexivity].
      rewrite (omap_one _ _ _ Hrow). symmetry. apply Permutation_cons_append. }
  assert (Hlists : exists before after,
            list_boards includeDeleted st = (Ok before, st)
            /\ list_boards includeDeleted (with_boards st (boards st ++ [row]))
               = (Ok after, with_boards st (boards st ++ [row]))
            /\ after ≡ₚ b :: before).
  { destruct includeDeleted.
    - destruct (list_boards_all_wf st Hwf) as (before & Hb & Pb).
      destruct (list_boards_all_wf _ Hwf') as (after & Ha & Pa).
      exists before, after. split; [exact Hb|]. split; [exact Ha|].
      apply Hperm; assumption.
    - destruct (list_boards_live_wf st Hwf) as (before & Hb & Pb).
      destruct (list_boards_live_wf _ Hwf') as (after & Ha & Pa).
      exists before, after. split; [exact Hb|]. split; [exact Ha|].
      apply Hperm; assumption. }
  destruct Hlists as (before & after & Hb & Ha & Pa).
  exists b, (with_boards st (boards st ++ [row])), before, after.
  split; [reflexivity|]. split; [exact Hb|]. split; [exact Ha|].
  split; [|exact Pa].
  apply list_elem_of_In. rewrite Pa. constructor.
Qed.

Lemma create_then_list_witness :
  exists b st' after,
    create_board 0x000000000000400080000000000000b2
      "2024-05-02T12:00:00.250000+00:00" beta_request one_board = (Ok b, st')
    /\ list_boards false st' = (Ok after, st')
    /\ map id after = [beta_id; alpha_id].
Proof.
  destruct (create_then_list 0x000000000000400080000000000000b2
              "2024-05-02T12:00:00.250000+00:00" beta_request one_board false
              wf_one_board eq_refl)
    as (b & st' & before & after & Hc & _ & Ha & _).
  exists b, st', after. split; [exact Hc|]. split; [exact Ha|].
  vm_compute in Hc. injection Hc as _ <-.
  vm_compute in Ha. injection Ha as <-. reflexivity.
Defined.
